(** * OperatableStateMachine: autonomy gate, mirror synchronisation and
      fail-safe execution of the FlexBE behavior engine

    Shallow embedding of
    [flexbe_core/flexbe_core/core/operatable_state_machine.py].

    Python objects are mutable; here every method takes the object it is
    called on ([self]) and the process-wide [world] (the class attribute
    [autonomy_level], the messages handed to the publisher, the lines given
    to the logger) and returns the updated values.  A statement that can
    raise yields a [result]. *)

From Stdlib Require Import ZArith Lia.
From stdpp Require Import base option list gmap strings.

Local Open Scope Z_scope.

(** ** Exceptions and results *)

(** The exception classes (all derived from [Exception]) that the
    statements of this file can raise. *)
Inductive exn :=
| KeyError (key : string)
| TypeError
| AttributeError
| StateMachineError
| StructureError
| RuntimeError (what : string).

(** [KeyError] is the only class above that derives from [LookupError]. *)
Definition is_LookupError (e : exn) : bool :=
  match e with KeyError _ => true | _ => false end.

Definition is_StateMachineError (e : exn) : bool :=
  match e with StateMachineError => true | _ => false end.

Inductive result (A : Type) :=
| Ok (a : A)
| Raise (e : exn).
Arguments Ok {A} a.
Arguments Raise {A} e.

Definition bind {A B : Type} (r : result A) (k : A -> result B) : result B :=
  match r with
  | Ok a => k a
  | Raise e => Raise e
  end.

Notation "'let*' x ':=' r 'in' k" := (bind r (fun x => k))
  (at level 10, x pattern, r at level 100, k at level 200).

(** [d[key]] on a dict. *)
Definition getitem {V : Type} (d : gmap string V) (key : string) : result V :=
  match d !! key with
  | Some v => Ok v
  | None => Raise (KeyError key)
  end.

(** [[f(x) for x in xs]], stopping at the first element that raises. *)
Fixpoint comprehension {A B : Type} (f : A -> result B) (xs : list A) : result (list B) :=
  match xs with
  | [] => Ok []
  | x :: rest =>
      let* y := f x in
      let* ys := comprehension f rest in
      Ok (y :: ys)
  end.

(** ** Messages (flexbe_msgs) *)

Module flexbe_msgs.

Record Container := {
  path : string;
  children : list string;
  outcomes : list string;
  transitions : list string;
  autonomy : list Z }.

(** A field holds what was assigned to it: [behavior_id] is Python's [None]
    when [self.id] was stored before [confirm] set it. *)
Record BehaviorSync := {
  behavior_id : option Z;
  current_state_checksum : Z }.

Record CommandFeedback := {
  command : string;
  args : list string }.

Record ContainerStructure := {
  structure_behavior_id : option Z;
  containers : list Container }.

Inductive message :=
| Sync (m : BehaviorSync)
| Feedback (m : CommandFeedback)
| Structure (m : ContainerStructure).

End flexbe_msgs.

(** ** States and state machines *)

(** What the logger is given; the text of a line is kept as its parts. *)
Inductive log_text :=
| SyncWhileIdNone
| SyncProcessed (beh_id : option Z) (sm_name current_label deep_name : string)
| NoActiveDeepState (sm_name : string)
| SyncEncounteredError (beh_id : option Z) (exc : exn)
| SentSynchronization
| NoSyncRequestFlag (sm_name : string)
| FailedToExecuteState (label : string) (exc : exn)
| Traceback (exc : exn)
| EnablingAttachControl
| SentAttachConfirm
| CreatingStructure (mirror_id : Z)
| SentStructure.

Inductive log_line :=
| localinfo (t : log_text)
| localwarn (t : log_text)
| localerr (t : log_text)
| logerr (t : log_text)
| logerror (t : log_text).

(** The state shared by all instances: the class attribute
    [OperatableStateMachine.autonomy_level], the publisher and the logger
    (both in call order). *)
Record world := {
  autonomy_level : Z;
  published : list (string * flexbe_msgs.message);
  logged : list log_line }.

(** Value of the class attribute when the module is loaded. *)
Definition initial_autonomy_level : Z := 3.

Definition set_autonomy_level (w : world) (level : Z) : world :=
  {| autonomy_level := level; published := published w; logged := logged w |}.

Definition publish (w : world) (topic : string) (msg : flexbe_msgs.message) : world :=
  {| autonomy_level := autonomy_level w;
     published := published w ++ [(topic, msg)];
     logged := logged w |}.

Definition log (w : world) (l : log_line) : world :=
  {| autonomy_level := autonomy_level w;
     published := published w;
     logged := logged w ++ [l] |}.

(** Attributes every state carries.  [on_stop_calls] counts the calls of the
    object's [on_stop] hook (the hook itself is user code). *)
Record attrs := {
  name : string;
  path : string;
  outcomes : list string;
  _is_controlled : bool;
  on_stop_calls : nat }.

(** Attributes of an [OperatableStateMachine] besides its inherited [attrs];
    [S] is the type of its children.  [_current_state] is the label of the
    active child. *)
Record machine_of (S : Type) := {
  sm_attrs : attrs;
  sm_id : option Z;
  _autonomy : gmap string (option (gmap string Z));
  _transitions : gmap string (gmap string string);
  _inner_sync_request : bool;
  _last_exception : option exn;
  _current_state : option string;
  _last_deep_state_path : option string;
  _states : list S }.
Arguments sm_attrs {S} _.
Arguments sm_id {S} _.
Arguments _autonomy {S} _.
Arguments _transitions {S} _.
Arguments _inner_sync_request {S} _.
Arguments _last_exception {S} _.
Arguments _current_state {S} _.
Arguments _last_deep_state_path {S} _.
Arguments _states {S} _.

(** The three cases the [isinstance] tests of this file tell apart: an
    [OperatableState], an [OperatableStateMachine], and any other state. *)
#[warnings="-register-all"]
Inductive state :=
| OperatableState (a : attrs)
| OtherState (a : attrs)
| Machine (sm : machine_of state).

Definition OperatableStateMachine : Type := machine_of state.

Definition state_attrs (st : state) : attrs :=
  match st with
  | OperatableState a | OtherState a => a
  | Machine sm => sm_attrs sm
  end.

(** *** Attribute assignment *)

Definition set_attrs (self : OperatableStateMachine) (a : attrs) : OperatableStateMachine :=
  {| sm_attrs := a; sm_id := sm_id self; _autonomy := _autonomy self;
     _transitions := _transitions self;
     _inner_sync_request := _inner_sync_request self;
     _last_exception := _last_exception self;
     _current_state := _current_state self;
     _last_deep_state_path := _last_deep_state_path self;
     _states := _states self |}.

Definition set_id (self : OperatableStateMachine) (v : option Z) : OperatableStateMachine :=
  {| sm_attrs := sm_attrs self; sm_id := v; _autonomy := _autonomy self;
     _transitions := _transitions self;
     _inner_sync_request := _inner_sync_request self;
     _last_exception := _last_exception self;
     _current_state := _current_state self;
     _last_deep_state_path := _last_deep_state_path self;
     _states := _states self |}.

Definition set_autonomy (self : OperatableStateMachine)
    (v : gmap string (option (gmap string Z))) : OperatableStateMachine :=
  {| sm_attrs := sm_attrs self; sm_id := sm_id self; _autonomy := v;
     _transitions := _transitions self;
     _inner_sync_request := _inner_sync_request self;
     _last_exception := _last_exception self;
     _current_state := _current_state self;
     _last_deep_state_path := _last_deep_state_path self;
     _states := _states self |}.

Definition set_transitions (self : OperatableStateMachine)
    (v : gmap string (gmap string string)) : OperatableStateMachine :=
  {| sm_attrs := sm_attrs self; sm_id := sm_id self; _autonomy := _autonomy self;
     _transitions := v;
     _inner_sync_request := _inner_sync_request self;
     _last_exception := _last_exception self;
     _current_state := _current_state self;
     _last_deep_state_path := _last_deep_state_path self;
     _states := _states self |}.

Definition set_inner_sync_request (self : OperatableStateMachine) (v : bool)
    : OperatableStateMachine :=
  {| sm_attrs := sm_attrs self; sm_id := sm_id self; _autonomy := _autonomy self;
     _transitions := _transitions self;
     _inner_sync_request := v;
     _last_exception := _last_exception self;
     _current_state := _current_state self;
     _last_deep_state_path := _last_deep_state_path self;
     _states := _states self |}.

Definition set_last_exception (self : OperatableStateMachine) (v : option exn)
    : OperatableStateMachine :=
  {| sm_attrs := sm_attrs self; sm_id := sm_id self; _autonomy := _autonomy self;
     _transitions := _transitions self;
     _inner_sync_request := _inner_sync_request self;
     _last_exception := v;
     _current_state := _current_state self;
     _last_deep_state_path := _last_deep_state_path self;
     _states := _states self |}.

Definition set_states (self : OperatableStateMachine) (v : list state)
    : OperatableStateMachine :=
  {| sm_attrs := sm_attrs self; sm_id := sm_id self; _autonomy := _autonomy self;
     _transitions := _transitions self;
     _inner_sync_request := _inner_sync_request self;
     _last_exception := _last_exception self;
     _current_state := _current_state self;
     _last_deep_state_path := _last_deep_state_path self;
     _states := v |}.

Definition set_name (a : attrs) (v : string) : attrs :=
  {| name := v; path := path a; outcomes := outcomes a;
     _is_controlled := _is_controlled a; on_stop_calls := on_stop_calls a |}.

Definition set_is_controlled (a : attrs) (v : bool) : attrs :=
  {| name := name a; path := path a; outcomes := outcomes a;
     _is_controlled := v; on_stop_calls := on_stop_calls a |}.

Definition map_attrs (f : attrs -> attrs) (st : state) : state :=
  match st with
  | OperatableState a => OperatableState (f a)
  | OtherState a => OtherState (f a)
  | Machine sm => Machine (set_attrs sm (f (sm_attrs sm)))
  end.

(** *** Collaborators defined outside this file *)

(** Modelled from the spec: the hook [on_stop] is implemented by the states
    (section 6 of the specification); a call is recorded in the counter. *)
Definition on_stop (a : attrs) : attrs :=
  {| name := name a; path := path a; outcomes := outcomes a;
     _is_controlled := _is_controlled a; on_stop_calls := S (on_stop_calls a) |}.

(** Modelled from the spec: [_enable_ros_control] and [_disable_ros_control]
    are inherited from the base classes; they switch the remote-control flag
    of the object they are called on. *)
Definition _enable_ros_control (a : attrs) : attrs := set_is_controlled a true.

Definition _disable_ros_control (a : attrs) : attrs := set_is_controlled a false.

(** Modelled from the spec: the property [current_state_label] of the base
    class gives the label of the active child ("log the resolved label");
    with no active child it raises the [StateMachineError] that
    [process_sync_request] catches around its use. *)
Definition current_state_label (self : OperatableStateMachine) : result string :=
  match _current_state self with
  | Some label => Ok label
  | None => Raise StateMachineError
  end.

(** ** Construction *)

(** [__init__] (lines 55-60): [base] is the object as [super().__init__]
    leaves it. *)
Definition __init__ (base : OperatableStateMachine) : OperatableStateMachine :=
  set_last_exception
    (set_inner_sync_request (set_autonomy (set_id base None) ∅) false) None.

(** Modelled from the spec: [PreemptableStateMachine.add] registers the child
    under [label]; it fails when the label is already used in the container
    or when the keys of [transitions] are not the declared outcomes of the
    child. *)
Definition base_add (self : OperatableStateMachine) (label : string) (st : state)
    (transitions : gmap string string) : result OperatableStateMachine :=
  if bool_decide (label ∈ map (fun s => name (state_attrs s)) (_states self)) then
    Raise StructureError
  else if bool_decide (dom transitions = list_to_set (outcomes (state_attrs st))) then
    Ok (set_transitions
          (set_states self (_states self ++ [map_attrs (fun a => set_name a label) st]))
          (<[label := transitions]> (_transitions self)))
  else Raise StructureError.

(** [add] (lines 64-85), called on the opened container [self]; [autonomy]
    is [None] when the argument is left out. *)
Definition add (self : OperatableStateMachine) (label : string) (st : state)
    (transitions : gmap string string) (autonomy : option (gmap string Z))
    : result OperatableStateMachine :=
  let* self := base_add self label st transitions in
  Ok (set_autonomy self (<[label := autonomy]> (_autonomy self))).

(** ** Autonomy gate *)

(** [is_transition_allowed] (lines 186-187):
    [self._autonomy[label].get(outcome, -1) < OperatableStateMachine.autonomy_level] *)
Definition is_transition_allowed (w : world) (self : OperatableStateMachine)
    (label outcome : string) : result bool :=
  let* entry := getitem (_autonomy self) label in
  match entry with
  | None => Raise AttributeError            (* None has no attribute get *)
  | Some levels =>
      Ok (bool_decide (default (-1) (levels !! outcome) < autonomy_level w))
  end.

(** [get_required_autonomy] (lines 189-190):
    [self._autonomy[self.current_state_label][outcome]] *)
Definition get_required_autonomy (self : OperatableStateMachine) (outcome : string)
    : result Z :=
  let* label := current_state_label self in
  let* entry := getitem (_autonomy self) label in
  match entry with
  | None => Raise TypeError                 (* None is not subscriptable *)
  | Some levels => getitem levels outcome
  end.

(** ** Status for the mirror *)

(** A Python [str] is held as the bytes of its UTF-8 encoding, so [encode]
    lists them. *)
Definition encode (s : string) : list Z :=
  map (fun c => Z.of_N (Ascii.N_of_ascii c)) (String.list_ascii_of_string s).

(** [zlib.adler32] (RFC 1950): two sums modulo 65521, the first starting
    at 1, packed as [(b << 16) | a]. *)
Definition adler32_step (ab : Z * Z) (byte : Z) : Z * Z :=
  let a := (fst ab + byte) mod 65521 in
  (a, (snd ab + a) mod 65521).

Definition adler32 (data : list Z) : Z :=
  let ab := fold_left adler32_step data (1, 0) in
  Z.lor (Z.shiftl (snd ab) 16) (fst ab).

(** [zlib.adler32(path.encode()) & 0x7fffffff] *)
Definition path_checksum (p : string) : Z :=
  Z.land (adler32 (encode p)) 0x7fffffff.

(** [get_latest_status] (lines 121-130); the lock only guards the two reads. *)
Definition get_latest_status (self : OperatableStateMachine) : flexbe_msgs.BehaviorSync :=
  let path := _last_deep_state_path self in
  let beh_id := sm_id self in
  {| flexbe_msgs.behavior_id :=
       Some (match beh_id with Some i => i | None => 0 end);
     flexbe_msgs.current_state_checksum :=
       match path with Some p => path_checksum p | None => 0 end |}.

(** ** Execution *)

Section Execution.

(** The step of the base class, [super()._execute_current_state()]: it may
    change the machine, and it returns an outcome or [None], or raises. *)
Variable super_execute_current_state :
  OperatableStateMachine -> OperatableStateMachine * result (option string).

(** [_execute_current_state] (lines 133-147).  The result carries the world
    and the machine as the call leaves them, also when the call raises. *)
Definition _execute_current_state (w : world) (self : OperatableStateMachine)
    : world * OperatableStateMachine * result (option string) :=
  match super_execute_current_state self with
  | (self, Ok outcome) =>
      let self := set_last_exception self None in
      (w, self, Ok outcome)
  | (self, Raise exc) =>
      let self := set_last_exception self (Some exc) in
      match current_state_label self with
      | Ok label =>
          let w := log w (logerr (FailedToExecuteState label exc)) in
          let w := log w (localinfo (Traceback exc)) in
          (w, self, Ok None)
      | Raise exc' => (w, self, Raise exc')   (* raised while handling [exc] *)
      end
  end.

End Execution.

(** ** Explicit synchronisation *)

Section Sync.

(** [get_deep_state] of the base class: the deepest active state, [None]
    when there is none; resolving it may raise. *)
Variable get_deep_state : OperatableStateMachine -> result (option attrs).

Definition sync_feedback : flexbe_msgs.CommandFeedback :=
  {| flexbe_msgs.command := "sync"; flexbe_msgs.args := [] |}.

(** The body of the [try] of [process_sync_request]: the world after its
    logging and the checksum it stores in the message. *)
Definition resolve_sync_checksum (w : world) (self : OperatableStateMachine)
    : result (world * Z) :=
  let* deep_state := get_deep_state self in
  match deep_state with
  | Some deep_state =>
      let* current_label :=
        match current_state_label self with
        | Ok label => Ok label
        | Raise exc => if is_StateMachineError exc then Ok "None" else Raise exc
        end in
      let w := log w (localinfo (SyncProcessed (sm_id self) (name (sm_attrs self))
                                               current_label (name deep_state))) in
      Ok (w, path_checksum (path deep_state))
  | None =>
      Ok (log w (localwarn (NoActiveDeepState (name (sm_attrs self)))), 0)
  end.

(** [process_sync_request] (lines 149-184). *)
Definition process_sync_request (w : world) (self : OperatableStateMachine)
    : world * OperatableStateMachine :=
  if _inner_sync_request self then
    let w := match sm_id self with
             | None => log w (localerr SyncWhileIdNone)
             | Some _ => w
             end in
    (* msg = BehaviorSync(): the checksum field starts at 0 *)
    let '(w, checksum) :=
      match resolve_sync_checksum w self with
      | Ok r => r
      | Raise exc => (log w (localerr (SyncEncounteredError (sm_id self) exc)), 0)
      end in
    let msg := {| flexbe_msgs.behavior_id := sm_id self;
                  flexbe_msgs.current_state_checksum := checksum |} in
    let self := set_inner_sync_request self false in
    let w := publish w "flexbe/mirror/sync" (flexbe_msgs.Sync msg) in
    let w := publish w "flexbe/command_feedback" (flexbe_msgs.Feedback sync_feedback) in
    (log w (localinfo SentSynchronization), self)
  else
    (log w (logerror (NoSyncRequestFlag (name (sm_attrs self)))), self).

End Sync.

(** What a processed sync request hands to the publisher. *)
Definition sync_publications (beh_id : option Z) (checksum : Z)
    : list (string * flexbe_msgs.message) :=
  [("flexbe/mirror/sync",
    flexbe_msgs.Sync {| flexbe_msgs.behavior_id := beh_id;
                        flexbe_msgs.current_state_checksum := checksum |});
   ("flexbe/command_feedback", flexbe_msgs.Feedback sync_feedback)].

(** ** Operator callbacks *)

(** [_sync_callback] (lines 256-258). *)
Definition _sync_callback (self : OperatableStateMachine) : OperatableStateMachine :=
  set_inner_sync_request self true.

(** [_attach_callback] (lines 260-271); [data] is the level carried by the
    message. *)
Definition _attach_callback (w : world) (self : OperatableStateMachine) (data : Z)
    : world * OperatableStateMachine :=
  let w := log w (localinfo EnablingAttachControl) in
  let w := set_autonomy_level w data in
  let self := set_attrs self (_enable_ros_control (sm_attrs self)) in
  let self := set_inner_sync_request self true in
  let cfb := {| flexbe_msgs.command := "attach"; flexbe_msgs.args := [] |} in
  let cfb := {| flexbe_msgs.command := flexbe_msgs.command cfb;
                flexbe_msgs.args := flexbe_msgs.args cfb ++ [name (sm_attrs self)] |} in
  let w := publish w "flexbe/command_feedback" (flexbe_msgs.Feedback cfb) in
  (log w (localinfo SentAttachConfirm), self).

(** ** Structure message *)

(** [Container()] and [Container(path=...)]: the other fields are empty. *)
Definition new_container (p : string) : flexbe_msgs.Container :=
  {| flexbe_msgs.path := p; flexbe_msgs.children := [];
     flexbe_msgs.outcomes := []; flexbe_msgs.transitions := [];
     flexbe_msgs.autonomy := [] |}.

Definition set_children (v : list string) (c : flexbe_msgs.Container) : flexbe_msgs.Container :=
  {| flexbe_msgs.path := flexbe_msgs.path c; flexbe_msgs.children := v;
     flexbe_msgs.outcomes := flexbe_msgs.outcomes c;
     flexbe_msgs.transitions := flexbe_msgs.transitions c;
     flexbe_msgs.autonomy := flexbe_msgs.autonomy c |}.

Definition set_outcomes (v : list string) (c : flexbe_msgs.Container) : flexbe_msgs.Container :=
  {| flexbe_msgs.path := flexbe_msgs.path c; flexbe_msgs.children := flexbe_msgs.children c;
     flexbe_msgs.outcomes := v;
     flexbe_msgs.transitions := flexbe_msgs.transitions c;
     flexbe_msgs.autonomy := flexbe_msgs.autonomy c |}.

Definition set_msg_transitions (v : list string) (c : flexbe_msgs.Container)
    : flexbe_msgs.Container :=
  {| flexbe_msgs.path := flexbe_msgs.path c; flexbe_msgs.children := flexbe_msgs.children c;
     flexbe_msgs.outcomes := flexbe_msgs.outcomes c;
     flexbe_msgs.transitions := v;
     flexbe_msgs.autonomy := flexbe_msgs.autonomy c |}.

Definition set_msg_autonomy (v : list Z) (c : flexbe_msgs.Container) : flexbe_msgs.Container :=
  {| flexbe_msgs.path := flexbe_msgs.path c; flexbe_msgs.children := flexbe_msgs.children c;
     flexbe_msgs.outcomes := flexbe_msgs.outcomes c;
     flexbe_msgs.transitions := flexbe_msgs.transitions c;
     flexbe_msgs.autonomy := v |}.

(** A [for] loop whose body may raise. *)
Fixpoint for_each {A S : Type} (body : A -> S -> result S) (xs : list A) (s : S) : result S :=
  match xs with
  | [] => Ok s
  | x :: rest =>
      let* s := body x s in
      for_each body rest s
  end.

(** [self._transitions[state.name][outcome]] *)
Definition transition_target (self : OperatableStateMachine) (label outcome : string)
    : result string :=
  let* targets := getitem (_transitions self) label in
  getitem targets outcome.

(** [self._autonomy[state.name][outcome]] *)
Definition required_autonomy (self : OperatableStateMachine) (label outcome : string)
    : result Z :=
  let* entry := getitem (_autonomy self) label in
  match entry with
  | None => Raise TypeError                 (* None is not subscriptable *)
  | Some levels => getitem levels outcome
  end.

(** "complete structure info for children": the three assignments to
    [state_msg], the message at index [state_msg] of the list. *)
Definition complete_state_msg (self : OperatableStateMachine) (a : attrs) (state_msg : nat)
    (containers : list flexbe_msgs.Container) : result (list flexbe_msgs.Container) :=
  let containers := alter (set_outcomes (outcomes a)) state_msg containers in
  let* transitions := comprehension (transition_target self (name a)) (outcomes a) in
  let containers := alter (set_msg_transitions transitions) state_msg containers in
  let* autonomy := comprehension (required_autonomy self (name a)) (outcomes a) in
  Ok (alter (set_msg_autonomy autonomy) state_msg containers).

(** [_add_to_structure_msg] (lines 95-119): [containers] is
    [structure_msg.containers]; a message object is known by its index in
    that list, where it stays once appended, so later assignments to it are
    updates at that index.
    [add_child] is the "create and add children" branch of the loop, which
    calls the method of the child when the child is a state machine. *)
Definition _add_to_structure_msg_with
    (add_child : state -> list flexbe_msgs.Container ->
                 result (list flexbe_msgs.Container * nat))
    (self : OperatableStateMachine) (containers : list flexbe_msgs.Container)
    : result (list flexbe_msgs.Container * nat) :=
  let container_msg := new_container (path (sm_attrs self)) in
  let container_msg :=
    set_children (map (fun st => name (state_attrs st)) (_states self)) container_msg in
  let container_ref := length containers in
  let containers := containers ++ [container_msg] in
  let* containers :=
    for_each (fun st containers =>
                let* (containers, state_msg) := add_child st containers in
                complete_state_msg self (state_attrs st) state_msg containers)
             (_states self) containers in
  Ok (containers, container_ref).

Fixpoint add_child_to_structure_msg (st : state) (containers : list flexbe_msgs.Container)
    : result (list flexbe_msgs.Container * nat) :=
  match st with
  | Machine sm => _add_to_structure_msg_with add_child_to_structure_msg sm containers
  | OperatableState a | OtherState a =>
      Ok (containers ++ [new_container (path a)], length containers)
  end.

Definition _add_to_structure_msg :=
  _add_to_structure_msg_with add_child_to_structure_msg.

(** [_build_structure_msg] (lines 87-93). *)
Definition _build_structure_msg (self : OperatableStateMachine)
    : result flexbe_msgs.ContainerStructure :=
  let* (containers, container_msg) := _add_to_structure_msg self [] in
  let containers := alter (set_outcomes (outcomes (sm_attrs self))) container_msg containers in
  Ok {| flexbe_msgs.structure_behavior_id := sm_id self;
        flexbe_msgs.containers := containers |}.

(** [_mirror_structure_callback] (lines 273-278).  The result carries the
    world and the machine as the call leaves them, also when building the
    message raises. *)
Definition _mirror_structure_callback (w : world) (self : OperatableStateMachine) (data : Z)
    : world * OperatableStateMachine * result unit :=
  let w := log w (localinfo (CreatingStructure data)) in
  match _build_structure_msg self with
  | Raise exc => (w, self, Raise exc)
  | Ok msg =>
      let w := publish w "flexbe/mirror/structure" (flexbe_msgs.Structure msg) in
      let w := log w (localinfo SentStructure) in
      let self := set_attrs self (_enable_ros_control (sm_attrs self)) in
      (w, self, Ok tt)
  end.

(** ** Stop notification *)

(** [if state._is_controlled: state._disable_ros_control()] *)
Definition disable_if_controlled (st : state) : state :=
  if _is_controlled (state_attrs st) then map_attrs _disable_ros_control st else st.

(** [_notify_stop] (lines 289-298); [stop_child] is the body of the loop. *)
Definition _notify_stop_with (stop_child : state -> state) (self : OperatableStateMachine)
    : OperatableStateMachine :=
  let self := set_attrs self (on_stop (sm_attrs self)) in
  set_states self (map stop_child (_states self)).

(** The body of the loop of [_notify_stop]: the two [isinstance] tests select
    a constructor, the third [if] applies to every child. *)
Fixpoint stop_child (st : state) : state :=
  disable_if_controlled
    match st with
    | OperatableState a => OperatableState (on_stop a)
    | Machine sm =>
        let sm := set_attrs sm (on_stop (sm_attrs sm)) in    (* state.on_stop() *)
        Machine (_notify_stop_with stop_child sm)            (* state._notify_stop() *)
    | OtherState a => OtherState a
    end.

Definition _notify_stop : OperatableStateMachine -> OperatableStateMachine :=
  _notify_stop_with stop_child.

(** ** The structural description as the specification words it *)

Definition value_or {A : Type} (d : A) (r : result A) : A :=
  match r with Ok a => a | Raise _ => d end.

(** The entry of a child of [self]: its declared outcomes and, for each of
    them, the transition target and the required autonomy that [self]
    holds for it. *)
Definition described_child (self : OperatableStateMachine) (a : attrs)
    (c : flexbe_msgs.Container) : flexbe_msgs.Container :=
  set_msg_autonomy
    (map (fun o => value_or 0 (required_autonomy self (name a) o)) (outcomes a))
    (set_msg_transitions
       (map (fun o => value_or "" (transition_target self (name a) o)) (outcomes a))
       (set_outcomes (outcomes a) c)).

Definition child_names (st : state) : list string :=
  match st with
  | Machine sm => map (fun c => name (state_attrs c)) (_states sm)
  | _ => []
  end.

(** The entry of a node as far as the node itself determines it. *)
Definition bare_entry (st : state) : flexbe_msgs.Container :=
  set_children (child_names st) (new_container (path (state_attrs st))).

(** Depth first, the entry of a node before the entries of its children;
    [complete] fills in what the parent knows about the node. *)
Fixpoint spec_structure_description
    (complete : flexbe_msgs.Container -> flexbe_msgs.Container) (st : state)
    : list flexbe_msgs.Container :=
  complete (bare_entry st)
  :: match st with
     | Machine sm =>
         concat (map (fun child =>
                        spec_structure_description
                          (described_child sm (state_attrs child)) child)
                     (_states sm))
     | _ => []
     end.

(** The nodes of a tree, depth first, parent before children, each with the
    container it is a child of ([None] for the root). *)
Fixpoint preorder (parent : option OperatableStateMachine) (st : state)
    : list (option OperatableStateMachine * state) :=
  (parent, st) :: match st with
                  | Machine sm => concat (map (preorder (Some sm)) (_states sm))
                  | _ => []
                  end.

(** What an entry of the structure message says about a node: its path, its
    declared outcomes, the names of its children and, when it is the child of
    a container, per declared outcome the transition target and the required
    autonomy the container registered for it. *)
Definition entry_describes (node : option OperatableStateMachine * state)
    (entry : flexbe_msgs.Container) : Prop :=
  let a := state_attrs (snd node) in
  flexbe_msgs.path entry = path a
  /\ flexbe_msgs.children entry = child_names (snd node)
  /\ flexbe_msgs.outcomes entry = outcomes a
  /\ match fst node with
     | None => flexbe_msgs.transitions entry = [] /\ flexbe_msgs.autonomy entry = []
     | Some parent =>
         Forall2 (fun o target =>
                    exists targets, _transitions parent !! name a = Some targets
                                    /\ targets !! o = Some target)
                 (outcomes a) (flexbe_msgs.transitions entry)
         /\ Forall2 (fun o level =>
                       exists levels, _autonomy parent !! name a = Some (Some levels)
                                      /\ levels !! o = Some level)
                    (outcomes a) (flexbe_msgs.autonomy entry)
     end.

(** The invariant of the transition and autonomy maps (section 3 of the
    specification): every declared outcome of every child has an entry in
    both maps of its container. *)
Definition child_registered (self : OperatableStateMachine) (a : attrs) : bool :=
  forallb (fun o =>
             match transition_target self (name a) o, required_autonomy self (name a) o with
             | Ok _, Ok _ => true
             | _, _ => false
             end)
          (outcomes a).

Fixpoint consistent_state (st : state) : bool :=
  match st with
  | Machine sm =>
      forallb (fun child => child_registered sm (state_attrs child) && consistent_state child)
              (_states sm)
  | _ => true
  end.

Definition consistent (self : OperatableStateMachine) : bool :=
  consistent_state (Machine self).

(** ** Descendants *)

(** The node reached from [st] by following child indices. *)
Fixpoint descendant (st : state) (p : list nat) : option state :=
  match p with
  | [] => Some st
  | i :: p' =>
      match st with
      | Machine sm =>
          match _states sm !! i with
          | Some child => descendant child p'
          | None => None
          end
      | _ => None
      end
  end.

(** How often one [_notify_stop] of an ancestor calls the [on_stop] of a
    descendant, by the kind of the descendant. *)
Definition on_stop_calls_made (st : state) : nat :=
  match st with
  | OperatableState _ => 1
  | Machine _ => 2
  | OtherState _ => 0
  end.

(** ** Example objects *)

Definition example_attrs (n p : string) (o : list string) (controlled : bool) : attrs :=
  {| name := n; path := p; outcomes := o; _is_controlled := controlled;
     on_stop_calls := 0 |}.

Definition example_machine (a : attrs) (beh_id : option Z)
    (au : gmap string (option (gmap string Z))) (tr : gmap string (gmap string string))
    (current : option string) (deep_path : option string) (cs : list state)
    : OperatableStateMachine :=
  {| sm_attrs := a; sm_id := beh_id; _autonomy := au; _transitions := tr;
     _inner_sync_request := false; _last_exception := None;
     _current_state := current; _last_deep_state_path := deep_path;
     _states := cs |}.

Definition example_world (level : Z) : world :=
  {| autonomy_level := level; published := []; logged := [] |}.

(** A root with a leaf [A], a nested container [Inner] holding a leaf [B],
    and a state [C] of another class. *)
Definition example_B : state :=
  OperatableState (example_attrs "B" "/root/Inner/B" ["ok"] true).

Definition example_Inner : OperatableStateMachine :=
  example_machine (example_attrs "Inner" "/root/Inner" ["finished"] true) None
    {[ "B" := Some {[ "ok" := 1 ]} ]}
    {[ "B" := {[ "ok" := "finished" ]} ]}
    (Some "B") None [example_B].

Definition example_A_levels : gmap string Z := {[ "done" := 0; "fail" := 2 ]}.

Definition example_A : state :=
  OperatableState (example_attrs "A" "/root/A" ["done"; "fail"] false).

Definition example_C : state :=
  OtherState (example_attrs "C" "/root/C" [] true).

Definition example_root : OperatableStateMachine :=
  example_machine (example_attrs "root" "/root" ["finished"; "failed"] false) (Some 7)
    {[ "A" := Some example_A_levels; "Inner" := Some {[ "finished" := 0 ]} ]}
    {[ "A" := {[ "done" := "Inner"; "fail" := "failed" ]};
       "Inner" := {[ "finished" := "finished" ]} ]}
    (Some "A") (Some "/root/A") [example_A; Machine example_Inner; example_C].

(** A root whose only child is an empty nested container. *)
Definition example_empty_child : OperatableStateMachine :=
  example_machine (example_attrs "Sub" "/top/Sub" ["done"] false) None ∅ ∅ None None [].

Definition example_nesting : OperatableStateMachine :=
  example_machine (example_attrs "top" "/top" ["done"] false) (Some 1)
    {[ "Sub" := Some {[ "done" := 0 ]} ]} {[ "Sub" := {[ "done" := "done" ]} ]}
    None None [Machine example_empty_child].

(** A machine as [__init__] leaves it, before [confirm]. *)
Definition example_unconfirmed : OperatableStateMachine :=
  __init__ (example_machine (example_attrs "fresh" "/fresh" ["done"] false) (Some 99)
              ∅ ∅ None (Some "/fresh/X") []).

Definition example_empty_path : OperatableStateMachine :=
  example_machine (example_attrs "root" "/root" [] false) (Some 7) ∅ ∅ None (Some "") [].

(** Steps of the base class used as examples: one that raises while the
    child stays active, one that returns an outcome. *)
Definition example_failing_step (self : OperatableStateMachine)
    : OperatableStateMachine * result (option string) :=
  (self, Raise (RuntimeError "boom")).

Definition example_successful_step (self : OperatableStateMachine)
    : OperatableStateMachine * result (option string) :=
  (self, Ok (Some "done")).

Definition example_deep_state (self : OperatableStateMachine) : result (option attrs) :=
  Ok (Some (example_attrs "A" "/root/A" ["done"; "fail"] false)).

Definition example_deep_state_raises (self : OperatableStateMachine)
    : result (option attrs) :=
  Raise (RuntimeError "lost").

(** ** Life cycle and the remaining callbacks *)

(** What [confirm], [destroy] and [_set_autonomy_level] give to [Logger] and
    [StateLogger], kept as the parts of the line. *)
Inductive lifecycle_line :=
| RequestAutonomyChanged (level : Z) (sm_name : string)
| NegativeAutonomyPreempt (level : Z) (sm_name : string)
| DestroyStateMachine (sm_name : string) (beh_id : option Z)
| StateLoggerShutdown
| SetUpPubSub (sm_name : string) (beh_id : option Z)
| StateLoggerInitialize (behavior : string)
| StateLoggerLogInitialize (behavior : string) (autonomy : Z)
| WaitForPublishers (sm_name : string) (beh_id : option Z)
| NotifyStatesToStart (sm_name : string) (beh_id : option Z)
| ConfirmationComplete (sm_name : string) (beh_id : option Z).

(** The process as the life-cycle methods see it: the [world], the
    publishers created, the subscriptions held (topic and the [inst_id] they
    were registered with), the states whose [on_start] hook was called (in
    call order) and the lines above. *)
Record process := {
  proc_world : world;
  publishers : list string;
  subscriptions : gset (string * Z);
  started : list attrs;
  lifecycle : list lifecycle_line }.

Definition set_world (p : process) (w : world) : process :=
  {| proc_world := w; publishers := publishers p; subscriptions := subscriptions p;
     started := started p; lifecycle := lifecycle p |}.

Definition note (p : process) (l : lifecycle_line) : process :=
  {| proc_world := proc_world p; publishers := publishers p;
     subscriptions := subscriptions p; started := started p;
     lifecycle := lifecycle p ++ [l] |}.

Definition createPublisher (p : process) (topic : string) : process :=
  {| proc_world := proc_world p; publishers := publishers p ++ [topic];
     subscriptions := subscriptions p; started := started p;
     lifecycle := lifecycle p |}.

(** Modelled from the spec: the subscriber proxy is not in this file; a
    subscription is registered under the topic and the identity of the
    instance, and [unsubscribe_topic] removes that registration. *)
Definition subscribe (p : process) (topic : string) (inst_id : Z) : process :=
  {| proc_world := proc_world p; publishers := publishers p;
     subscriptions := {[ (topic, inst_id) ]} ∪ subscriptions p; started := started p;
     lifecycle := lifecycle p |}.

Definition unsubscribe_topic (p : process) (topic : string) (inst_id : Z) : process :=
  {| proc_world := proc_world p; publishers := publishers p;
     subscriptions := subscriptions p ∖ {[ (topic, inst_id) ]}; started := started p;
     lifecycle := lifecycle p |}.

Definition record_started (p : process) (l : list attrs) : process :=
  {| proc_world := proc_world p; publishers := publishers p;
     subscriptions := subscriptions p; started := started p ++ l;
     lifecycle := lifecycle p |}.

Definition set_current_state (self : OperatableStateMachine) (v : option string)
    : OperatableStateMachine :=
  {| sm_attrs := sm_attrs self; sm_id := sm_id self; _autonomy := _autonomy self;
     _transitions := _transitions self;
     _inner_sync_request := _inner_sync_request self;
     _last_exception := _last_exception self;
     _current_state := v;
     _last_deep_state_path := _last_deep_state_path self;
     _states := _states self |}.

(** [_notify_start] (lines 282-287): the states whose [on_start] is called,
    in call order; [start_child] is the body of the loop. *)
Definition _notify_start_with (start_child : state -> list attrs)
    (self : OperatableStateMachine) : list attrs :=
  concat (map start_child (_states self)).

(** The body of the loop of [_notify_start]: [on_start] of an
    [OperatableState], the method itself on an [OperatableStateMachine]. *)
Fixpoint start_child (st : state) : list attrs :=
  match st with
  | OperatableState a => [a]                                 (* state.on_start() *)
  | Machine sm => _notify_start_with start_child sm          (* state._notify_start() *)
  | OtherState _ => []
  end.

Definition _notify_start : OperatableStateMachine -> list attrs :=
  _notify_start_with start_child.

(** [confirm] (lines 202-241); [inst_id] is [id(self)] and [new_name] the
    argument [name].  [set_name] of the base class is taken to store the
    name; a subscription is kept without its callback; the fixed wait of
    line 237 changes nothing that is modelled. *)
Definition confirm (inst_id : Z) (p : process) (self : OperatableStateMachine)
    (new_name : string) (beh_id : Z) : process * OperatableStateMachine :=
  let self := set_attrs self (set_name (sm_attrs self) new_name) in
  let self := set_id self (Some beh_id) in
  let p := note p (SetUpPubSub (name (sm_attrs self)) (sm_id self)) in
  let p := createPublisher p "flexbe/mirror/sync" in
  let p := createPublisher p "flexbe/mirror/structure" in
  let p := createPublisher p "flexbe/command_feedback" in
  let p := subscribe p "flexbe/command/autonomy" inst_id in
  let p := subscribe p "flexbe/command/sync" inst_id in
  let p := subscribe p "flexbe/command/attach" inst_id in
  let p := subscribe p "flexbe/request_mirror_structure" inst_id in
  let p := note p (StateLoggerInitialize new_name) in
  let p := note p (StateLoggerLogInitialize new_name (autonomy_level (proc_world p))) in
  let self :=
    if bool_decide (autonomy_level (proc_world p) <> 255)
    then set_attrs self (_enable_ros_control (sm_attrs self))
    else self in
  let p := note p (WaitForPublishers (name (sm_attrs self)) (sm_id self)) in
  let p := note p (NotifyStatesToStart (name (sm_attrs self)) (sm_id self)) in
  let p := record_started p (_notify_start self) in
  let p := note p (ConfirmationComplete (name (sm_attrs self)) (sm_id self)) in
  (p, self).

(** [destroy] (lines 192-200); [inst_id] is [id(self)]. *)
Definition destroy (inst_id : Z) (p : process) (self : OperatableStateMachine)
    : process * OperatableStateMachine :=
  let p := note p (DestroyStateMachine (name (sm_attrs self)) (sm_id self)) in
  let self := _notify_stop self in
  let self := set_attrs self (_disable_ros_control (sm_attrs self)) in
  let p := unsubscribe_topic p "flexbe/command/autonomy" inst_id in
  let p := unsubscribe_topic p "flexbe/command/sync" inst_id in
  let p := unsubscribe_topic p "flexbe/command/attach" inst_id in
  let p := unsubscribe_topic p "flexbe/request_mirror_structure" inst_id in
  let p := note p StateLoggerShutdown in
  (p, self).

Definition autonomy_feedback : flexbe_msgs.CommandFeedback :=
  {| flexbe_msgs.command := "autonomy"; flexbe_msgs.args := [] |}.

Section Preempt.

(** [_preempt_cb] of the base class, called with the message of a negative
    level. *)
Variable _preempt_cb :
  Z -> process -> OperatableStateMachine -> process * OperatableStateMachine.

(** [_set_autonomy_level] (lines 245-254); [data] is the level carried by
    the message. *)
Definition _set_autonomy_level (p : process) (self : OperatableStateMachine) (data : Z)
    : process * OperatableStateMachine :=
  let p := if bool_decide (autonomy_level (proc_world p) <> data)
           then note p (RequestAutonomyChanged data (name (sm_attrs self)))
           else p in
  let '(p, self) :=
    if bool_decide (data < 0) then
      let p := note p (NegativeAutonomyPreempt data (name (sm_attrs self))) in
      _preempt_cb data p self
    else
      (set_world p (set_autonomy_level (proc_world p) data), self) in
  (set_world p (publish (proc_world p) "flexbe/command_feedback"
                        (flexbe_msgs.Feedback autonomy_feedback)),
   self).

End Preempt.

Section Exit.

(** Lines 302-307 of [on_exit], for the active child with the given label:
    the view of the user data is built, the child is marked as entering and
    its [on_exit] hook runs; any of this may raise. *)
Variable exit_current_state :
  OperatableStateMachine -> string -> result OperatableStateMachine.

(** [on_exit] (lines 300-308). *)
Definition on_exit (self : OperatableStateMachine) : result OperatableStateMachine :=
  match _current_state self with
  | Some label =>
      let* self := exit_current_state self label in
      Ok (set_current_state self None)
  | None => Ok self
  end.

End Exit.

(** The [OperatableState]s of a tree, depth first. *)
Definition operatable_states (st : state) : list attrs :=
  omap (fun node => match snd node with
                    | OperatableState a => Some a
                    | _ => None
                    end)
       (preorder None st).

(** The remote-control flag is off at a node and below it. *)
Fixpoint uncontrolled (st : state) : bool :=
  negb (_is_controlled (state_attrs st))
  && match st with
     | Machine sm => forallb uncontrolled (_states sm)
     | _ => true
     end.

(** What the structure message reads of a state. *)
Definition same_description (st' st : state) : Prop :=
  name (state_attrs st') = name (state_attrs st)
  /\ path (state_attrs st') = path (state_attrs st)
  /\ outcomes (state_attrs st') = outcomes (state_attrs st)
  /\ forall containers,
       add_child_to_structure_msg st' containers
       = add_child_to_structure_msg st containers.

Definition example_process (level : Z) : process :=
  {| proc_world := example_world level; publishers := [];
     subscriptions := {[ ("flexbe/command/sync", 41) ]}; started := [];
     lifecycle := [] |}.

Definition example_preempt_cb (data : Z) (p : process) (self : OperatableStateMachine)
    : process * OperatableStateMachine :=
  (p, self).

Definition example_exit_current_state (self : OperatableStateMachine) (label : string)
    : result OperatableStateMachine :=
  Ok self.

(** A container whose child A was added without an autonomy map. *)
Definition example_unregistered : OperatableStateMachine :=
  example_machine (example_attrs "bare" "/bare" ["done"] false) None
    {[ "A" := None ]} {[ "A" := {[ "done" := "done"; "fail" := "done" ]} ]}
    None None [example_A].

(** The container [example_empty_child] after
    [add("A", A, {done: done, fail: done}, {done: 0, fail: 2})]. *)
Definition example_added : OperatableStateMachine :=
  value_or example_empty_child
    (add example_empty_child "A" example_A {[ "done" := "done"; "fail" := "done" ]}
         (Some example_A_levels)).

(** * Properties *)

(** ** Autonomy gate *)

Lemma is_transition_allowed_registered (w : world) (self : OperatableStateMachine)
    (label outcome : string) (levels : gmap string Z) :
  _autonomy self !! label = Some (Some levels) ->
  is_transition_allowed w self label outcome =
    Ok (bool_decide (default (-1) (levels !! outcome) < autonomy_level w)).
Proof.
  intros Hreg. unfold is_transition_allowed, getitem. rewrite Hreg. reflexivity.
Qed.

Lemma Ok_true_bool_decide (P : Prop) `{Decision P} :
  @Ok bool (bool_decide P) = Ok true <-> P.
Proof.
  split.
  - intros Heq. injection Heq as Heq. by apply bool_decide_eq_true in Heq.
  - intros HP. f_equal. by apply bool_decide_eq_true.
Qed.

(** C1 (as amended): for a label registered with an autonomy map, the
    transition is allowed iff the required level of the outcome is strictly
    below the process-wide autonomy level, where an outcome without an entry
    has the required level -1: it is allowed iff -1 is below the level, so at
    every level that is not negative. *)
Theorem is_transition_allowed_iff (w : world) (self : OperatableStateMachine)
    (label outcome : string) (levels : gmap string Z) :
  _autonomy self !! label = Some (Some levels) ->
  (forall required, levels !! outcome = Some required ->
     (is_transition_allowed w self label outcome = Ok true <-> required < autonomy_level w))
  /\ (levels !! outcome = None ->
        (is_transition_allowed w self label outcome = Ok true <-> -1 < autonomy_level w)
        /\ (0 <= autonomy_level w -> is_transition_allowed w self label outcome = Ok true)).
Proof.
  intros Hreg. rewrite (is_transition_allowed_registered _ _ _ _ _ Hreg).
  split.
  - intros required Hentry. rewrite Hentry. simpl. apply Ok_true_bool_decide.
  - intros Hmissing. rewrite Hmissing. simpl. split.
    + apply Ok_true_bool_decide.
    + intros Hlevel. apply Ok_true_bool_decide. lia.
Qed.

Lemma is_transition_allowed_iff_witness :
  (forall required, example_A_levels !! "fail" = Some required ->
     (is_transition_allowed (example_world 1) example_root "A" "fail" = Ok true
      <-> required < autonomy_level (example_world 1)))
  /\ (example_A_levels !! "fail" = None ->
        (is_transition_allowed (example_world 1) example_root "A" "fail" = Ok true
         <-> -1 < autonomy_level (example_world 1))
        /\ (0 <= autonomy_level (example_world 1) ->
            is_transition_allowed (example_world 1) example_root "A" "fail" = Ok true)).
Proof.
  apply (is_transition_allowed_iff (example_world 1) example_root "A" "fail" example_A_levels).
  reflexivity.
Defined.

(** C1, counterexample: at the initial autonomy level 3 the outcome "retry",
    which has no entry in the autonomy map of the registered child "A", is
    allowed, where the claim has it refused. *)
Lemma is_transition_allowed_missing_entry :
  _autonomy example_root !! "A" = Some (Some example_A_levels)
  /\ example_A_levels !! "retry" = None
  /\ is_transition_allowed (example_world initial_autonomy_level) example_root "A" "retry"
     = Ok true
  /\ is_transition_allowed (example_world initial_autonomy_level) example_root "A" "retry"
     <> Ok false.
Proof.
  repeat split; try reflexivity. vm_compute. discriminate.
Qed.

(** The scenario of section 8: child A with required autonomy done:0 and
    fail:2, autonomy level 1. *)
Example scenario_gate_level_1 :
  is_transition_allowed (example_world 1) example_root "A" "done" = Ok true
  /\ is_transition_allowed (example_world 1) example_root "A" "fail" = Ok false.
Proof. split; reflexivity. Qed.

(** C5: raising the autonomy level never refuses a transition that was
    allowed at the lower level. *)
Theorem is_transition_allowed_monotone (w : world) (self : OperatableStateMachine)
    (label outcome : string) (L1 L2 : Z) :
  L1 < L2 ->
  is_transition_allowed (set_autonomy_level w L1) self label outcome = Ok true ->
  is_transition_allowed (set_autonomy_level w L2) self label outcome = Ok true.
Proof.
  intros Hlt. unfold is_transition_allowed, getitem.
  destruct (_autonomy self !! label) as [[levels|]|]; simpl; try discriminate.
  rewrite !Ok_true_bool_decide. lia.
Qed.

Lemma is_transition_allowed_monotone_witness :
  is_transition_allowed (set_autonomy_level (example_world 0) 4) example_root "A" "fail"
  = Ok true.
Proof.
  apply (is_transition_allowed_monotone (example_world 0) example_root "A" "fail" 3 4).
  - lia.
  - reflexivity.
Defined.

Lemma add_autonomy (self self' : OperatableStateMachine) (label : string) (st : state)
    (transitions : gmap string string) (autonomy : option (gmap string Z)) :
  add self label st transitions autonomy = Ok self' ->
  _autonomy self' !! label = Some autonomy.
Proof.
  unfold add. destruct (base_add self label st transitions) as [self1|e]; simpl.
  - intros Heq. injection Heq as <-. simpl. apply lookup_insert_eq.
  - discriminate.
Qed.

(** C9 (as amended): [is_transition_allowed] returns a boolean for every
    outcome when the label was added with an autonomy map; for a label never
    added it raises [KeyError], and for a child added without an autonomy map
    it raises [AttributeError].  [get_required_autonomy] raises a
    [LookupError] (a [KeyError]) when the outcome is not registered for the
    active child. *)
Theorem is_transition_allowed_total_when_registered (w : world)
    (self : OperatableStateMachine) (label outcome : string) :
  (forall levels, _autonomy self !! label = Some (Some levels) ->
     exists b, is_transition_allowed w self label outcome = Ok b)
  /\ (_autonomy self !! label = None ->
      is_transition_allowed w self label outcome = Raise (KeyError label))
  /\ (forall st transitions self',
        add self label st transitions None = Ok self' ->
        is_transition_allowed w self' label outcome = Raise AttributeError)
  /\ (forall levels, current_state_label self = Ok label ->
        _autonomy self !! label = Some (Some levels) ->
        levels !! outcome = None ->
        exists e, get_required_autonomy self outcome = Raise e /\ is_LookupError e = true).
Proof.
  repeat split.
  - intros levels Hreg. eexists. by apply is_transition_allowed_registered.
  - intros Hnone. unfold is_transition_allowed, getitem. by rewrite Hnone.
  - intros st transitions self' Hadd. apply add_autonomy in Hadd.
    unfold is_transition_allowed, getitem. by rewrite Hadd.
  - intros levels Hactive Hreg Hmissing. exists (KeyError outcome).
    unfold get_required_autonomy, getitem. rewrite Hactive. simpl.
    rewrite Hreg. simpl. by rewrite Hmissing.
Qed.

Lemma is_transition_allowed_total_when_registered_witness :
  (exists b, is_transition_allowed (example_world 3) example_root "A" "retry" = Ok b)
  /\ is_transition_allowed (example_world 3) example_empty_child "A" "retry"
     = Raise (KeyError "A")
  /\ (forall self',
        add example_empty_child "A" example_A {[ "done" := "done"; "fail" := "done" ]} None
        = Ok self' ->
        is_transition_allowed (example_world 3) self' "A" "retry" = Raise AttributeError)
  /\ (exists e, get_required_autonomy example_root "retry" = Raise e
                /\ is_LookupError e = true).
Proof.
  destruct (is_transition_allowed_total_when_registered
              (example_world 3) example_root "A" "retry") as (H1 & _ & _ & H4).
  destruct (is_transition_allowed_total_when_registered
              (example_world 3) example_empty_child "A" "retry") as (_ & H2 & H3 & _).
  split; [|split; [|split]].
  - apply (H1 example_A_levels). reflexivity.
  - apply H2. reflexivity.
  - intros self'. apply H3.
  - apply (H4 example_A_levels); reflexivity.
Defined.

(** C9, counterexample: the call raises for a label that was never added,
    and for a child added without an autonomy map. *)
Lemma is_transition_allowed_raises :
  is_transition_allowed (example_world 3) example_root "ghost" "done"
  = Raise (KeyError "ghost")
  /\ (exists self',
        add example_empty_child "A" example_A {[ "done" := "done"; "fail" := "done" ]} None
        = Ok self'
        /\ is_transition_allowed (example_world 3) self' "A" "done" = Raise AttributeError).
Proof.
  split.
  - reflexivity.
  - eexists. split; reflexivity.
Qed.

(** ** Status for the mirror *)

Lemma mask_31_ones : 0x7fffffff = Z.ones 31.
Proof. reflexivity. Qed.

Lemma path_checksum_mod (p : string) :
  path_checksum p = adler32 (encode p) mod 2 ^ 31.
Proof.
  unfold path_checksum. rewrite mask_31_ones. apply Z.land_ones. lia.
Qed.

Lemma path_checksum_range (p : string) : 0 <= path_checksum p < 2 ^ 31.
Proof.
  rewrite path_checksum_mod. apply Z.mod_pos_bound. lia.
Qed.

Lemma path_checksum_bits (p : string) (i : Z) :
  0 <= i ->
  Z.testbit (path_checksum p) i
  = if bool_decide (i < 31) then Z.testbit (adler32 (encode p)) i else false.
Proof.
  intros Hi. unfold path_checksum. rewrite mask_31_ones, Z.land_spec.
  case_bool_decide.
  - rewrite Z.ones_spec_low by lia. apply andb_true_r.
  - rewrite Z.ones_spec_high by lia. apply andb_false_r.
Qed.

Lemma adler32_step_range (ab : Z * Z) (byte : Z) :
  0 <= fst (adler32_step ab byte) < 65521 /\ 0 <= snd (adler32_step ab byte) < 65521.
Proof.
  unfold adler32_step. simpl. split; apply Z.mod_pos_bound; lia.
Qed.

Lemma adler32_sums_range (data : list Z) (ab : Z * Z) :
  0 <= fst ab < 65521 /\ 0 <= snd ab < 65521 ->
  0 <= fst (fold_left adler32_step data ab) < 65521
  /\ 0 <= snd (fold_left adler32_step data ab) < 65521.
Proof.
  revert ab. induction data as [|byte rest IH]; intros ab Hab; simpl; [exact Hab|].
  apply IH, adler32_step_range.
Qed.

Lemma lor_below_pow2 (x y n : Z) :
  0 <= x < 2 ^ n -> 0 <= y < 2 ^ n -> 0 <= n -> 0 <= Z.lor x y < 2 ^ n.
Proof.
  intros Hx Hy Hn.
  assert (Hnonneg : 0 <= Z.lor x y) by (apply Z.lor_nonneg; lia).
  split; [exact Hnonneg|].
  destruct (Z.eq_dec (Z.lor x y) 0) as [->|Hne]; [lia|].
  apply Z.log2_lt_pow2; [lia|]. rewrite Z.log2_lor by lia.
  apply Z.max_lub_lt.
  - destruct (Z.eq_dec x 0) as [->|Hx0]; [simpl|apply Z.log2_lt_pow2; lia].
    destruct (Z.eq_dec n 0) as [->|]; [|lia]. simpl in *.
    assert (y = 0) by lia. subst. simpl in Hne. done.
  - destruct (Z.eq_dec y 0) as [->|Hy0]; [simpl|apply Z.log2_lt_pow2; lia].
    destruct (Z.eq_dec n 0) as [->|]; [|lia]. simpl in *.
    assert (x = 0) by lia. subst. simpl in Hne. done.
Qed.

Lemma adler32_range (data : list Z) : 0 <= adler32 data < 2 ^ 32.
Proof.
  unfold adler32.
  destruct (adler32_sums_range data (1, 0)) as [Ha Hb]; [simpl; lia|].
  apply lor_below_pow2; [|lia|lia].
  rewrite Z.shiftl_mul_pow2 by lia. lia.
Qed.

Lemma path_checksum_clears_top_bit (p : string) :
  path_checksum p
  = adler32 (encode p) - 2 ^ 31 * Z.b2z (Z.testbit (adler32 (encode p)) 31).
Proof.
  rewrite path_checksum_mod, Z.testbit_spec' by lia.
  pose proof (adler32_range (encode p)) as Hrange.
  set (x := adler32 (encode p)) in *.
  pose proof (Z.div_mod x (2 ^ 31) ltac:(lia)) as Hdiv.
  pose proof (Z.mod_pos_bound x (2 ^ 31) ltac:(lia)) as Hmod.
  assert (Hq : 0 <= x / 2 ^ 31 < 2).
  { split; [apply Z.div_pos; lia|]. apply Z.div_lt_upper_bound; lia. }
  rewrite (Z.mod_small (x / 2 ^ 31) 2) by lia. lia.
Qed.

Lemma path_checksum_empty : path_checksum "" = 1.
Proof. reflexivity. Qed.

Lemma get_latest_status_checksum_eq (self : OperatableStateMachine) :
  flexbe_msgs.current_state_checksum (get_latest_status self)
  = match _last_deep_state_path self with
    | Some p => path_checksum p
    | None => 0
    end.
Proof. reflexivity. Qed.

(** C4 (as amended): the checksum of [get_latest_status] is a function of
    the active-path snapshot alone: for a path it is the adler32 checksum of
    the bytes of the path with bit 31 cleared (the bits below are kept, so it
    is below 2^31), and it is 0 when no path is active.  For the empty path
    it is 1, the adler32 checksum of no bytes. *)
Theorem get_latest_status_checksum (self : OperatableStateMachine) :
  let checksum := flexbe_msgs.current_state_checksum (get_latest_status self) in
  (forall other : OperatableStateMachine,
     _last_deep_state_path other = _last_deep_state_path self ->
     flexbe_msgs.current_state_checksum (get_latest_status other) = checksum)
  /\ (forall p, _last_deep_state_path self = Some p ->
        checksum = Z.land (adler32 (encode p)) 0x7fffffff
        /\ 0 <= checksum < 2 ^ 31
        /\ Z.testbit checksum 31 = false
        /\ (forall i, 0 <= i < 31 ->
              Z.testbit checksum i = Z.testbit (adler32 (encode p)) i)
        /\ checksum
           = adler32 (encode p) - 2 ^ 31 * Z.b2z (Z.testbit (adler32 (encode p)) 31))
  /\ (_last_deep_state_path self = None -> checksum = 0)
  /\ (_last_deep_state_path self = Some "" -> checksum = 1).
Proof.
  intros checksum. subst checksum. rewrite get_latest_status_checksum_eq.
  split; [|split; [|split]].
  - intros other Hsame. by rewrite get_latest_status_checksum_eq, Hsame.
  - intros p Hpath. rewrite Hpath. split; [reflexivity|]. split; [|split; [|split]].
    + apply path_checksum_range.
    + rewrite path_checksum_bits by lia. reflexivity.
    + intros i Hi. rewrite path_checksum_bits by lia.
      rewrite bool_decide_eq_true_2 by lia. reflexivity.
    + apply path_checksum_clears_top_bit.
  - intros Hpath. by rewrite Hpath.
  - intros Hpath. rewrite Hpath. apply path_checksum_empty.
Qed.

Lemma get_latest_status_checksum_witness :
  flexbe_msgs.current_state_checksum (get_latest_status example_root)
  = Z.land (adler32 (encode "/root/A")) 0x7fffffff
  /\ flexbe_msgs.current_state_checksum (get_latest_status example_Inner) = 0
  /\ flexbe_msgs.current_state_checksum (get_latest_status example_empty_path) = 1.
Proof.
  destruct (get_latest_status_checksum example_root) as (_ & Hpath & _ & _).
  destruct (get_latest_status_checksum example_Inner) as (_ & _ & Hnone & _).
  destruct (get_latest_status_checksum example_empty_path) as (_ & _ & _ & Hempty).
  split; [|split].
  - apply (Hpath "/root/A"). reflexivity.
  - apply Hnone. reflexivity.
  - apply Hempty. reflexivity.
Defined.

(** C4, counterexample: with the empty path as snapshot the checksum is 1,
    where the claim has 0. *)
Lemma get_latest_status_empty_path :
  _last_deep_state_path example_empty_path = Some ""
  /\ flexbe_msgs.current_state_checksum (get_latest_status example_empty_path) = 1
  /\ flexbe_msgs.current_state_checksum (get_latest_status example_empty_path) <> 0.
Proof.
  split; [reflexivity|]. split; [reflexivity|]. vm_compute. discriminate.
Qed.

Example adler32_Wikipedia : adler32 (encode "Wikipedia") = 0x11E60398.
Proof. reflexivity. Qed.

(** C10: while the id is unset, as [__init__] leaves it, the status message
    carries [behavior_id] 0, and its checksum is the one of the active-path
    snapshot, the same as with any id set. *)
Theorem get_latest_status_unconfirmed (self : OperatableStateMachine) :
  sm_id self = None ->
  flexbe_msgs.behavior_id (get_latest_status self) = Some 0
  /\ flexbe_msgs.current_state_checksum (get_latest_status self)
     = match _last_deep_state_path self with
       | Some p => Z.land (adler32 (encode p)) 0x7fffffff
       | None => 0
       end
  /\ (forall beh_id,
        flexbe_msgs.current_state_checksum (get_latest_status (set_id self (Some beh_id)))
        = flexbe_msgs.current_state_checksum (get_latest_status self))
  /\ (forall base, sm_id (__init__ base) = None).
Proof.
  intros Hid. unfold get_latest_status. rewrite Hid. simpl.
  repeat split.
Qed.

Lemma get_latest_status_unconfirmed_witness :
  flexbe_msgs.behavior_id (get_latest_status example_unconfirmed) = Some 0
  /\ flexbe_msgs.current_state_checksum (get_latest_status example_unconfirmed)
     = Z.land (adler32 (encode "/fresh/X")) 0x7fffffff.
Proof.
  destruct (get_latest_status_unconfirmed example_unconfirmed) as (Hid & Hsum & _).
  - reflexivity.
  - split; [exact Hid | exact Hsum].
Defined.

(** ** Fail-safe execution *)

(** With a child active after the step: a step of the base class that
    returns is passed on with the last exception cleared; a step that raises
    does not raise out of the wrapper: the wrapper returns [None], keeps the
    exception as last exception, logs it, and the failing state stays the
    active one. *)
Theorem execute_current_state_isolates
    (super_step : OperatableStateMachine -> OperatableStateMachine * result (option string))
    (w : world) (self : OperatableStateMachine) :
  (forall self1 outcome,
     super_step self = (self1, Ok outcome) ->
     exists self',
       _execute_current_state super_step w self = (w, self', Ok outcome)
       /\ _last_exception self' = None
       /\ _current_state self' = _current_state self1)
  /\ (forall self1 exc label,
        super_step self = (self1, Raise exc) ->
        _current_state self1 = Some label ->
        exists w' self',
          _execute_current_state super_step w self = (w', self', Ok None)
          /\ _last_exception self' = Some exc
          /\ _current_state self' = Some label
          /\ _states self' = _states self1
          /\ logged w' = logged w ++ [logerr (FailedToExecuteState label exc);
                                      localinfo (Traceback exc)]
          /\ published w' = published w
          /\ autonomy_level w' = autonomy_level w).
Proof.
  split.
  - intros self1 outcome Hstep. unfold _execute_current_state. rewrite Hstep.
    eexists. repeat split.
  - intros self1 exc label Hstep Hactive. unfold _execute_current_state.
    rewrite Hstep. unfold current_state_label. simpl. rewrite Hactive.
    do 2 eexists. split; [reflexivity|]. simpl.
    repeat split; try assumption. by rewrite <- app_assoc.
Qed.

Lemma execute_current_state_isolates_witness :
  (exists self',
     _execute_current_state example_successful_step (example_world 3) example_root
     = (example_world 3, self', Ok (Some "done"))
     /\ _last_exception self' = None
     /\ _current_state self' = Some "A")
  /\ (exists w' self',
        _execute_current_state example_failing_step (example_world 3) example_root
        = (w', self', Ok None)
        /\ _last_exception self' = Some (RuntimeError "boom")
        /\ _current_state self' = Some "A").
Proof.
  destruct (execute_current_state_isolates example_successful_step
              (example_world 3) example_root) as [Hok _].
  destruct (execute_current_state_isolates example_failing_step
              (example_world 3) example_root) as [_ Hraise].
  split.
  - apply (Hok example_root (Some "done")). reflexivity.
  - destruct (Hraise example_root (RuntimeError "boom") "A") as (w' & self' & H1 & H2 & H3 & _).
    + reflexivity.
    + reflexivity.
    + exists w', self'. repeat split; assumption.
Defined.

(** The log line of the handler reads [current_state_label]; when the step
    raised and left no child active, that read raises in its turn. *)
Lemma execute_current_state_no_active_child
    (super_step : OperatableStateMachine -> OperatableStateMachine * result (option string))
    (w : world) (self self1 : OperatableStateMachine) (exc : exn) :
  super_step self = (self1, Raise exc) ->
  _current_state self1 = None ->
  _execute_current_state super_step w self
  = (w, set_last_exception self1 (Some exc), Raise StateMachineError).
Proof.
  intros Hstep Hnone. unfold _execute_current_state. rewrite Hstep.
  unfold current_state_label. simpl. by rewrite Hnone.
Qed.

(** C3, at a machine without an active child whose step raises: the
    exception of the step is caught and kept as last exception, but the log
    line of the handler (line 143) reads [current_state_label], unguarded
    where lines 165-168 guard the same read, and the [StateMachineError] it
    raises leaves the wrapper. *)
Theorem execute_current_state_propagates :
  _current_state example_nesting = None
  /\ example_failing_step example_nesting = (example_nesting, Raise (RuntimeError "boom"))
  /\ _execute_current_state example_failing_step (example_world 3) example_nesting
     = (example_world 3,
        set_last_exception example_nesting (Some (RuntimeError "boom")),
        Raise StateMachineError).
Proof. repeat split. Qed.

(** ** Explicit synchronisation *)

Lemma process_sync_request_pending
    (get_deep_state : OperatableStateMachine -> result (option attrs))
    (w : world) (self : OperatableStateMachine) :
  _inner_sync_request self = true ->
  exists checksum w',
    process_sync_request get_deep_state w self = (w', set_inner_sync_request self false)
    /\ published w' = published w ++ sync_publications (sm_id self) checksum
    /\ autonomy_level w' = autonomy_level w
    /\ (get_deep_state self = Ok None ->
        checksum = 0 /\ localwarn (NoActiveDeepState (name (sm_attrs self))) ∈ logged w')
    /\ (forall exc, get_deep_state self = Raise exc ->
        checksum = 0 /\ localerr (SyncEncounteredError (sm_id self) exc) ∈ logged w')
    /\ (forall deep_state, get_deep_state self = Ok (Some deep_state) ->
        checksum = path_checksum (path deep_state)).
Proof.
  intros Hflag. unfold process_sync_request. rewrite Hflag.
  set (w0 := match sm_id self with
             | Some _ => w
             | None => log w (localerr SyncWhileIdNone)
             end).
  assert (Hpub0 : published w0 = published w) by (subst w0; by destruct (sm_id self)).
  assert (Hlvl0 : autonomy_level w0 = autonomy_level w) by (subst w0; by destruct (sm_id self)).
  unfold resolve_sync_checksum.
  destruct (get_deep_state self) as [[deep_state|]|exc] eqn:Hdeep; simpl.
  - unfold current_state_label.
    destruct (_current_state self) as [label|]; simpl;
      (do 2 eexists; split; [reflexivity|]; simpl; rewrite Hpub0, Hlvl0, <- app_assoc;
       split; [reflexivity|]; split; [reflexivity|];
       split; [discriminate|]; split; [discriminate|];
       intros d Hd; injection Hd as <-; reflexivity).
  - do 2 eexists. split; [reflexivity|]. simpl. rewrite Hpub0, Hlvl0, <- app_assoc.
    split; [reflexivity|]. split; [reflexivity|].
    split; [|split; discriminate].
    intros _. split; [reflexivity|].
    apply elem_of_app. left. apply elem_of_app. right. by apply list_elem_of_singleton.
  - do 2 eexists. split; [reflexivity|]. simpl. rewrite Hpub0, Hlvl0, <- app_assoc.
    split; [reflexivity|]. split; [reflexivity|].
    split; [discriminate|]. split; [|discriminate].
    intros exc' Hexc. injection Hexc as <-. split; [reflexivity|].
    apply elem_of_app. left. apply elem_of_app. right. by apply list_elem_of_singleton.
Qed.

(** C6: called with the pending-sync flag set, [process_sync_request] clears
    the flag and publishes a BehaviorSync message and then the command
    feedback naming "sync", whatever resolving the deep state does: with no
    deep active state the checksum is 0 and a warning is logged, and when
    resolving raises the error is logged and the checksum is 0. *)
Theorem process_sync_request_always_answers
    (get_deep_state : OperatableStateMachine -> result (option attrs))
    (w : world) (self : OperatableStateMachine) :
  _inner_sync_request self = true ->
  exists checksum w' self',
    process_sync_request get_deep_state w self = (w', self')
    /\ _inner_sync_request self' = false
    /\ published w' =
         published w
         ++ [("flexbe/mirror/sync",
              flexbe_msgs.Sync {| flexbe_msgs.behavior_id := sm_id self;
                                  flexbe_msgs.current_state_checksum := checksum |});
             ("flexbe/command_feedback",
              flexbe_msgs.Feedback {| flexbe_msgs.command := "sync";
                                      flexbe_msgs.args := [] |})]
    /\ (get_deep_state self = Ok None ->
        checksum = 0 /\ localwarn (NoActiveDeepState (name (sm_attrs self))) ∈ logged w')
    /\ (forall exc, get_deep_state self = Raise exc ->
        checksum = 0 /\ localerr (SyncEncounteredError (sm_id self) exc) ∈ logged w')
    /\ (forall deep_state, get_deep_state self = Ok (Some deep_state) ->
        checksum = Z.land (adler32 (encode (path deep_state))) 0x7fffffff).
Proof.
  intros Hflag.
  destruct (process_sync_request_pending get_deep_state w self Hflag)
    as (checksum & w' & Hrun & Hpub & _ & Hnone & Hraise & Hsome).
  exists checksum, w', (set_inner_sync_request self false).
  split; [exact Hrun|]. split; [reflexivity|]. split; [exact Hpub|].
  split; [exact Hnone|]. split; [exact Hraise|].
  intros deep_state Hdeep. by apply Hsome.
Qed.

Lemma process_sync_request_always_answers_witness :
  exists checksum w' self',
    process_sync_request example_deep_state_raises (example_world 3)
      (_sync_callback example_root) = (w', self')
    /\ _inner_sync_request self' = false
    /\ published w' =
         [("flexbe/mirror/sync",
           flexbe_msgs.Sync {| flexbe_msgs.behavior_id := Some 7;
                               flexbe_msgs.current_state_checksum := checksum |});
          ("flexbe/command_feedback",
           flexbe_msgs.Feedback {| flexbe_msgs.command := "sync";
                                   flexbe_msgs.args := [] |})]
    /\ checksum = 0.
Proof.
  destruct (process_sync_request_always_answers example_deep_state_raises
              (example_world 3) (_sync_callback example_root))
    as (checksum & w' & self' & Hrun & Hflag & Hpub & _ & Hraise & _).
  - reflexivity.
  - exists checksum, w', self'.
    split; [exact Hrun|]. split; [exact Hflag|]. split; [exact Hpub|].
    apply (Hraise (RuntimeError "lost")). reflexivity.
Defined.

(** ** Operator callbacks *)

(** C7: the attach handler sets the process-wide autonomy level to the level
    of the command, enables remote control, sets the pending-sync flag, and
    publishes the command feedback "attach" whose arguments are the name of
    the state machine; the flag being set, the next [process_sync_request]
    publishes a BehaviorSync message and clears it. *)
Theorem attach_callback_effects (w : world) (self : OperatableStateMachine) (v : Z) :
  exists w' self',
    _attach_callback w self v = (w', self')
    /\ autonomy_level w' = v
    /\ _is_controlled (sm_attrs self') = true
    /\ _inner_sync_request self' = true
    /\ published w' =
         published w
         ++ [("flexbe/command_feedback",
              flexbe_msgs.Feedback {| flexbe_msgs.command := "attach";
                                      flexbe_msgs.args := [name (sm_attrs self)] |})]
    /\ (forall get_deep_state, exists checksum w'' self'',
          process_sync_request get_deep_state w' self' = (w'', self'')
          /\ _inner_sync_request self'' = false
          /\ autonomy_level w'' = v
          /\ _is_controlled (sm_attrs self'') = true
          /\ published w'' = published w' ++ sync_publications (sm_id self) checksum).
Proof.
  do 2 eexists. split; [reflexivity|]. simpl.
  split; [reflexivity|]. split; [reflexivity|]. split; [reflexivity|].
  split; [reflexivity|].
  intros get_deep_state.
  match goal with
  | |- context [process_sync_request _ ?w1 ?s1] =>
      destruct (process_sync_request_pending get_deep_state w1 s1 eq_refl)
        as (checksum & w'' & Hrun & Hpub & Hlvl & _)
  end.
  exists checksum, w''. eexists. split; [exact Hrun|].
  split; [reflexivity|]. split; [exact Hlvl|]. split; [reflexivity|]. exact Hpub.
Qed.

(** The scenario of section 8: an attach command with level 3. *)
Example scenario_attach_level_3 :
  let '(w, self) := _attach_callback (example_world 0) example_root 3 in
  let '(w', self') := process_sync_request example_deep_state w self in
  autonomy_level w' = 3
  /\ _is_controlled (sm_attrs self') = true
  /\ _inner_sync_request self' = false
  /\ published w' =
       [("flexbe/command_feedback",
         flexbe_msgs.Feedback {| flexbe_msgs.command := "attach";
                                 flexbe_msgs.args := ["root"] |});
        ("flexbe/mirror/sync",
         flexbe_msgs.Sync {| flexbe_msgs.behavior_id := Some 7;
                             flexbe_msgs.current_state_checksum := path_checksum "/root/A" |});
        ("flexbe/command_feedback",
         flexbe_msgs.Feedback {| flexbe_msgs.command := "sync";
                                 flexbe_msgs.args := [] |})].
Proof. vm_compute. repeat split. Qed.

(** ** Stop notification *)

Lemma stop_child_Machine (sm : OperatableStateMachine) :
  stop_child (Machine sm)
  = disable_if_controlled (Machine (_notify_stop (set_attrs sm (on_stop (sm_attrs sm))))).
Proof. reflexivity. Qed.

Lemma disable_if_controlled_attrs (st : state) :
  _is_controlled (state_attrs (disable_if_controlled st)) = false
  /\ on_stop_calls (state_attrs (disable_if_controlled st)) = on_stop_calls (state_attrs st).
Proof.
  unfold disable_if_controlled.
  destruct (_is_controlled (state_attrs st)) eqn:Hflag.
  - destruct st; simpl; split; reflexivity.
  - split; [exact Hflag | reflexivity].
Qed.

Lemma disable_if_controlled_descendant (st : state) (i : nat) (p : list nat) :
  descendant (disable_if_controlled st) (i :: p) = descendant st (i :: p).
Proof.
  unfold disable_if_controlled.
  destruct (_is_controlled (state_attrs st)); [|reflexivity].
  destruct st; reflexivity.
Qed.

(** The effect of the loop body on the child itself. *)
Lemma stop_child_attrs (st : state) :
  on_stop_calls (state_attrs (stop_child st))
  = (on_stop_calls (state_attrs st) + on_stop_calls_made st)%nat
  /\ _is_controlled (state_attrs (stop_child st)) = false.
Proof.
  destruct (disable_if_controlled_attrs
              match st with
              | OperatableState a => OperatableState (on_stop a)
              | Machine sm =>
                  Machine (_notify_stop_with stop_child (set_attrs sm (on_stop (sm_attrs sm))))
              | OtherState a => OtherState a
              end) as [Hflag Hcalls].
  destruct st as [a|a|sm]; simpl in *; (split; [|exact Hflag]); rewrite Hcalls; lia.
Qed.

Lemma stop_child_descendant (p : list nat) :
  forall (st d : state),
    p <> [] ->
    descendant st p = Some d ->
    exists d',
      descendant (stop_child st) p = Some d'
      /\ on_stop_calls (state_attrs d')
         = (on_stop_calls (state_attrs d) + on_stop_calls_made d)%nat
      /\ _is_controlled (state_attrs d') = false.
Proof.
  induction p as [|i p IH]; intros st d Hne Hd; [done|].
  destruct st as [a|a|sm]; try discriminate.
  rewrite stop_child_Machine, disable_if_controlled_descendant.
  simpl in *. rewrite list_lookup_fmap.
  destruct (_states sm !! i) as [child|]; [simpl|discriminate].
  destruct p as [|j p'].
  - simpl in *. injection Hd as <-. exists (stop_child child).
    split; [reflexivity|]. apply stop_child_attrs.
  - apply IH; [discriminate | exact Hd].
Qed.

(** What [_notify_stop] on the root does to every descendant: the [on_stop]
    of an [OperatableState] is called once, the one of a nested
    [OperatableStateMachine] twice (by its parent and again by its own
    [_notify_stop]), the one of a state of another class not at all; the
    remote-control flag of every descendant is off afterwards. *)
Lemma notify_stop_descendants (self : OperatableStateMachine) (p : list nat) (d : state) :
  p <> [] ->
  descendant (Machine self) p = Some d ->
  exists d',
    descendant (Machine (_notify_stop self)) p = Some d'
    /\ on_stop_calls (state_attrs d')
       = (on_stop_calls (state_attrs d) + on_stop_calls_made d)%nat
    /\ _is_controlled (state_attrs d') = false.
Proof.
  intros Hne Hd. destruct p as [|i p]; [done|].
  simpl in *. rewrite list_lookup_fmap.
  destruct (_states self !! i) as [child|]; [simpl|discriminate].
  destruct p as [|j p'].
  - simpl in *. injection Hd as <-. exists (stop_child child).
    split; [reflexivity|]. apply stop_child_attrs.
  - apply stop_child_descendant; [discriminate | exact Hd].
Qed.

Lemma notify_stop_root (self : OperatableStateMachine) :
  on_stop_calls (sm_attrs (_notify_stop self)) = S (on_stop_calls (sm_attrs self)).
Proof. reflexivity. Qed.

(** C2, at a root whose only child is a nested (empty) container: after
    [_notify_stop] on the root, the [on_stop] of the nested container has
    been called twice. *)
Theorem notify_stop_nested_container_stopped_twice :
  (fun d => on_stop_calls (state_attrs d)) <$> descendant (Machine example_nesting) [0%nat]
  = Some 0%nat
  /\ (fun d => on_stop_calls (state_attrs d))
       <$> descendant (Machine (_notify_stop example_nesting)) [0%nat]
     = Some 2%nat.
Proof. split; reflexivity. Qed.

Example notify_stop_example_root :
  map (fun d => (name (state_attrs d), on_stop_calls (state_attrs d),
                 _is_controlled (state_attrs d)))
      (_states (_notify_stop example_root))
  = [("A", 1%nat, false); ("Inner", 2%nat, false); ("C", 0%nat, false)].
Proof. reflexivity. Qed.

(** ** Structure message *)

(** Induction on a tree of states, with the property for all children of a
    container at hand. *)
Lemma state_ind_nested (P : state -> Prop) :
  (forall a, P (OperatableState a)) ->
  (forall a, P (OtherState a)) ->
  (forall sm, Forall P (_states sm) -> P (Machine sm)) ->
  forall st, P st.
Proof.
  intros Hop Hother Hmachine. fix IH 1. intros [a|a|sm].
  - apply Hop.
  - apply Hother.
  - apply Hmachine. destruct sm as [a i au tr f e c d states]. simpl.
    induction states as [|child rest IHrest]; constructor.
    + apply IH.
    + exact IHrest.
Qed.

Lemma comprehension_total {A B : Type} (f : A -> result B) (d : B) (xs : list A) :
  forallb (fun x => match f x with Ok _ => true | Raise _ => false end) xs = true ->
  comprehension f xs = Ok (map (fun x => value_or d (f x)) xs).
Proof.
  induction xs as [|x rest IH]; simpl; [reflexivity|].
  intros Hall. apply andb_prop in Hall as [Hx Hrest].
  destruct (f x) as [y|e]; [simpl|discriminate].
  rewrite (IH Hrest). reflexivity.
Qed.

Lemma child_registered_split (self : OperatableStateMachine) (a : attrs) :
  child_registered self a = true ->
  forallb (fun o => match transition_target self (name a) o with
                    | Ok _ => true | Raise _ => false end) (outcomes a) = true
  /\ forallb (fun o => match required_autonomy self (name a) o with
                       | Ok _ => true | Raise _ => false end) (outcomes a) = true.
Proof.
  unfold child_registered. induction (outcomes a) as [|o rest IH]; simpl; [done|].
  intros Hall. apply andb_prop in Hall as [Ho Hrest].
  destruct (IH Hrest) as [-> ->].
  destruct (transition_target self (name a) o); [|discriminate].
  destruct (required_autonomy self (name a) o); [|discriminate].
  done.
Qed.

Lemma alter_at_length {A : Type} (f : A -> A) (l : list A) (x : A) (r : list A) :
  alter f (length l) (l ++ x :: r) = l ++ f x :: r.
Proof.
  rewrite <- (Nat.add_0_r (length l)), alter_app_r. reflexivity.
Qed.

(** The three assignments to [state_msg] complete the entry of the child. *)
Lemma complete_state_msg_registered (self : OperatableStateMachine) (a : attrs)
    (before : list flexbe_msgs.Container) (entry : flexbe_msgs.Container)
    (after : list flexbe_msgs.Container) :
  child_registered self a = true ->
  complete_state_msg self a (length before) (before ++ entry :: after)
  = Ok (before ++ described_child self a entry :: after).
Proof.
  intros Hreg. apply child_registered_split in Hreg as [Htr Hau].
  unfold complete_state_msg.
  rewrite (comprehension_total _ "" _ Htr). simpl.
  rewrite (comprehension_total _ 0 _ Hau). simpl.
  rewrite !alter_at_length. reflexivity.
Qed.

Lemma spec_structure_description_complete
    (complete : flexbe_msgs.Container -> flexbe_msgs.Container) (st : state) :
  spec_structure_description complete st
  = alter complete 0%nat (spec_structure_description (fun c => c) st).
Proof. destruct st; reflexivity. Qed.

Lemma spec_structure_description_cons (st : state) :
  exists entry rest, spec_structure_description (fun c => c) st = entry :: rest.
Proof. destruct st; simpl; eauto. Qed.

(** The loop of [_add_to_structure_msg] over children that already satisfy
    the statement below. *)
Lemma add_children_loop (self : OperatableStateMachine) (states : list state) :
  Forall (fun st =>
            consistent_state st = true ->
            forall containers,
              add_child_to_structure_msg st containers
              = Ok (containers ++ spec_structure_description (fun c => c) st,
                    length containers)) states ->
  forallb (fun child => child_registered self (state_attrs child) && consistent_state child)
          states = true ->
  forall containers,
    for_each (fun st containers =>
                let* (containers, state_msg) := add_child_to_structure_msg st containers in
                complete_state_msg self (state_attrs st) state_msg containers)
             states containers
    = Ok (containers
          ++ concat (map (fun child =>
                            spec_structure_description
                              (described_child self (state_attrs child)) child)
                         states)).
Proof.
  induction 1 as [|child rest Hchild Hrest IH]; simpl; intros Hall containers.
  - by rewrite app_nil_r.
  - apply andb_prop in Hall as [Hhead Hall]. apply andb_prop in Hhead as [Hreg Hcons].
    rewrite (Hchild Hcons). simpl.
    rewrite (spec_structure_description_complete (described_child _ _)).
    destruct (spec_structure_description_cons child) as (entry & others & ->).
    rewrite complete_state_msg_registered by exact Hreg. simpl.
    rewrite (IH Hall). f_equal. rewrite <- !app_assoc. reflexivity.
Qed.

(** The code appends to [structure_msg.containers] the description of the
    subtree, the entry of the subtree's root still to be completed by the
    caller, and returns the index of that entry. *)
Lemma add_child_to_structure_msg_spec (st : state) :
  consistent_state st = true ->
  forall containers,
    add_child_to_structure_msg st containers
    = Ok (containers ++ spec_structure_description (fun c => c) st, length containers).
Proof.
  induction st as [a|a|sm IH] using state_ind_nested; intros Hcons containers;
    try reflexivity.
  simpl in Hcons. simpl. unfold _add_to_structure_msg_with.
  rewrite (add_children_loop sm (_states sm) IH Hcons). simpl.
  rewrite <- app_assoc. reflexivity.
Qed.

Lemma build_structure_msg_spec (self : OperatableStateMachine) :
  consistent self = true ->
  _build_structure_msg self
  = Ok {| flexbe_msgs.structure_behavior_id := sm_id self;
          flexbe_msgs.containers :=
            spec_structure_description (set_outcomes (outcomes (sm_attrs self)))
                                       (Machine self) |}.
Proof.
  intros Hcons. unfold _build_structure_msg, _add_to_structure_msg.
  change (_add_to_structure_msg_with add_child_to_structure_msg self [])
    with (add_child_to_structure_msg (Machine self) []).
  rewrite (add_child_to_structure_msg_spec _ Hcons). reflexivity.
Qed.

Lemma transitions_described (self : OperatableStateMachine) (label : string)
    (os : list string) :
  forallb (fun o => match transition_target self label o with
                    | Ok _ => true | Raise _ => false end) os = true ->
  Forall2 (fun o target =>
             exists targets, _transitions self !! label = Some targets
                             /\ targets !! o = Some target)
          os (map (fun o => value_or "" (transition_target self label o)) os).
Proof.
  induction os as [|o rest IH]; simpl; intros Hall; constructor.
  - apply andb_prop in Hall as [Ho _]. unfold transition_target, getitem in *.
    destruct (_transitions self !! label) as [targets|]; [simpl in *|discriminate].
    destruct (targets !! o) as [target|] eqn:Htarget; [|discriminate].
    exists targets. done.
  - apply andb_prop in Hall as [_ Hrest]. by apply IH.
Qed.

Lemma autonomy_described (self : OperatableStateMachine) (label : string)
    (os : list string) :
  forallb (fun o => match required_autonomy self label o with
                    | Ok _ => true | Raise _ => false end) os = true ->
  Forall2 (fun o level =>
             exists levels, _autonomy self !! label = Some (Some levels)
                            /\ levels !! o = Some level)
          os (map (fun o => value_or 0 (required_autonomy self label o)) os).
Proof.
  induction os as [|o rest IH]; simpl; intros Hall; constructor.
  - apply andb_prop in Hall as [Ho _]. unfold required_autonomy, getitem in *.
    destruct (_autonomy self !! label) as [[levels|]|]; simpl in *; try discriminate.
    destruct (levels !! o) as [level|] eqn:Hlevel; [|discriminate].
    exists levels. done.
  - apply andb_prop in Hall as [_ Hrest]. by apply IH.
Qed.

Lemma described_child_describes (self : OperatableStateMachine) (child : state) :
  child_registered self (state_attrs child) = true ->
  entry_describes (Some self, child)
                  (described_child self (state_attrs child) (bare_entry child)).
Proof.
  intros Hreg. apply child_registered_split in Hreg as [Htr Hau].
  unfold entry_describes. simpl.
  split; [reflexivity|]. split; [reflexivity|]. split; [reflexivity|].
  split; [by apply transitions_described | by apply autonomy_described].
Qed.

Lemma Forall2_concat {A B : Type} (P : A -> B -> Prop)
    (xss : list (list A)) (yss : list (list B)) :
  Forall2 (Forall2 P) xss yss -> Forall2 P (concat xss) (concat yss).
Proof.
  induction 1 as [|xs ys xss yss Hhead _ IH]; simpl; [constructor|].
  by apply Forall2_app.
Qed.

(** The description holds one entry per node, in depth-first order with a
    parent before its children, and each entry describes its node. *)
Lemma spec_structure_description_describes (st : state) :
  consistent_state st = true ->
  forall parent complete,
    entry_describes (parent, st) (complete (bare_entry st)) ->
    Forall2 entry_describes (preorder parent st) (spec_structure_description complete st).
Proof.
  induction st as [a|a|sm IH] using state_ind_nested;
    intros Hcons parent complete Hroot; simpl; constructor; try exact Hroot;
    try constructor.
  simpl in Hcons. apply Forall2_concat.
  induction IH as [|child rest Hchild Hrest IHrest]; simpl; constructor.
  - apply andb_prop in Hcons as [Hhead _]. apply andb_prop in Hhead as [Hreg Hchild_cons].
    apply Hchild; [exact Hchild_cons|]. by apply described_child_describes.
  - apply andb_prop in Hcons as [_ Hcons]. by apply IHrest.
Qed.

(** C8 (as amended): on a tree whose maps hold an entry for every declared
    outcome of every child, the handler of a structure request publishes the
    structure message whose entries are the description of the tree: one
    entry per node, in depth-first order with a container before its
    children, each child entry with one transition target and one required
    autonomy per declared outcome; and then remote control is enabled. *)
Theorem mirror_structure_callback_describes (w : world) (self : OperatableStateMachine)
    (data : Z) :
  consistent self = true ->
  exists w' self' entries,
    _mirror_structure_callback w self data = (w', self', Ok tt)
    /\ published w' =
         published w
         ++ [("flexbe/mirror/structure",
              flexbe_msgs.Structure {| flexbe_msgs.structure_behavior_id := sm_id self;
                                       flexbe_msgs.containers := entries |})]
    /\ entries = spec_structure_description (set_outcomes (outcomes (sm_attrs self)))
                                            (Machine self)
    /\ Forall2 entry_describes (preorder None (Machine self)) entries
    /\ _is_controlled (sm_attrs self') = true
    /\ _states self' = _states self.
Proof.
  intros Hcons. unfold _mirror_structure_callback.
  rewrite (build_structure_msg_spec self Hcons).
  do 3 eexists. split; [reflexivity|]. simpl.
  split; [reflexivity|]. split; [reflexivity|]. split; [|split; reflexivity].
  apply (spec_structure_description_describes (Machine self) Hcons).
  unfold entry_describes. simpl. repeat split.
Qed.

Lemma mirror_structure_callback_describes_witness :
  exists w' self' entries,
    _mirror_structure_callback (example_world 3) example_root 12 = (w', self', Ok tt)
    /\ published w' =
         [("flexbe/mirror/structure",
           flexbe_msgs.Structure {| flexbe_msgs.structure_behavior_id := Some 7;
                                    flexbe_msgs.containers := entries |})]
    /\ map flexbe_msgs.path entries
       = ["/root"; "/root/A"; "/root/Inner"; "/root/Inner/B"; "/root/C"]
    /\ _is_controlled (sm_attrs self') = true.
Proof.
  destruct (mirror_structure_callback_describes (example_world 3) example_root 12)
    as (w' & self' & entries & Hrun & Hpub & Hentries & _ & Hflag & _).
  - reflexivity.
  - exists w', self', entries.
    split; [exact Hrun|]. split; [exact Hpub|]. split; [|exact Hflag].
    rewrite Hentries. reflexivity.
Defined.

(** C8, counterexample: for a container whose child was added by [add]
    without an autonomy map, the handler of a structure request raises
    before anything is published, and remote control is not enabled. *)
Example mirror_structure_callback_unregistered_child :
  exists self,
    add example_empty_child "A" example_A {[ "done" := "done"; "fail" := "done" ]} None
    = Ok self
    /\ consistent self = false
    /\ exists w',
         _mirror_structure_callback (example_world 3) self 12 = (w', self, Raise TypeError)
         /\ published w' = []
         /\ _is_controlled (sm_attrs self) = false.
Proof.
  eexists. split; [reflexivity|]. split; [reflexivity|].
  eexists. split; [reflexivity|]. split; reflexivity.
Qed.

(** * Further properties *)

(** ** Stop notification *)

Lemma disable_if_controlled_kind (st : state) :
  on_stop_calls_made (disable_if_controlled st) = on_stop_calls_made st.
Proof.
  unfold disable_if_controlled. destruct (_is_controlled (state_attrs st)); [|reflexivity].
  destruct st; reflexivity.
Qed.

Lemma stop_child_kind (st : state) :
  on_stop_calls_made (stop_child st) = on_stop_calls_made st.
Proof.
  destruct st as [a|a|sm].
  - apply (disable_if_controlled_kind (OperatableState (on_stop a))).
  - apply (disable_if_controlled_kind (OtherState a)).
  - rewrite stop_child_Machine, disable_if_controlled_kind. reflexivity.
Qed.

Lemma stop_child_same_attrs (st : state) :
  name (state_attrs (stop_child st)) = name (state_attrs st)
  /\ path (state_attrs (stop_child st)) = path (state_attrs st)
  /\ outcomes (state_attrs (stop_child st)) = outcomes (state_attrs st).
Proof.
  assert (Hdis : forall x,
            name (state_attrs (disable_if_controlled x)) = name (state_attrs x)
            /\ path (state_attrs (disable_if_controlled x)) = path (state_attrs x)
            /\ outcomes (state_attrs (disable_if_controlled x)) = outcomes (state_attrs x)).
  { intros x. unfold disable_if_controlled.
    destruct (_is_controlled (state_attrs x)); [|done]. by destruct x. }
  destruct st as [a|a|sm].
  - apply (Hdis (OperatableState (on_stop a))).
  - apply (Hdis (OtherState a)).
  - rewrite stop_child_Machine.
    destruct (Hdis (Machine (_notify_stop (set_attrs sm (on_stop (sm_attrs sm))))))
      as (-> & -> & ->).
    done.
Qed.

(** The node the loop body leaves at a place below [st], and no node where
    there was none. *)
Lemma stop_child_below (p : list nat) :
  forall st : state,
    p <> [] ->
    match descendant st p with
    | Some d =>
        exists d',
          descendant (stop_child st) p = Some d'
          /\ on_stop_calls (state_attrs d')
             = (on_stop_calls (state_attrs d) + on_stop_calls_made d)%nat
          /\ _is_controlled (state_attrs d') = false
          /\ on_stop_calls_made d' = on_stop_calls_made d
          /\ name (state_attrs d') = name (state_attrs d)
          /\ path (state_attrs d') = path (state_attrs d)
          /\ outcomes (state_attrs d') = outcomes (state_attrs d)
    | None => descendant (stop_child st) p = None
    end.
Proof.
  induction p as [|i p IH]; intros st Hne; [done|].
  destruct st as [a|a|sm].
  - simpl. unfold disable_if_controlled. simpl. by destruct (_is_controlled a).
  - simpl. unfold disable_if_controlled. simpl. by destruct (_is_controlled a).
  - rewrite stop_child_Machine, disable_if_controlled_descendant.
    simpl. rewrite list_lookup_fmap.
    destruct (_states sm !! i) as [child|]; [simpl|reflexivity].
    destruct p as [|j p'].
    + simpl. exists (stop_child child). split; [reflexivity|].
      destruct (stop_child_attrs child) as [Hcalls Hflag].
      destruct (stop_child_same_attrs child) as (Hn & Hp & Ho).
      repeat split; try assumption. apply stop_child_kind.
    + apply IH. discriminate.
Qed.

(** X1: [_notify_stop] on the root keeps the shape of the tree and the name,
    path, outcomes and kind of every descendant; at every descendant the
    remote-control flag is off afterwards and [on_stop] has been called once
    on an [OperatableState], twice on a nested [OperatableStateMachine] and
    not at all on a state of another class. *)
Theorem notify_stop_every_descendant (self : OperatableStateMachine) (p : list nat) :
  p <> [] ->
  match descendant (Machine self) p with
  | Some d =>
      exists d',
        descendant (Machine (_notify_stop self)) p = Some d'
        /\ on_stop_calls (state_attrs d')
           = (on_stop_calls (state_attrs d) + on_stop_calls_made d)%nat
        /\ _is_controlled (state_attrs d') = false
        /\ on_stop_calls_made d' = on_stop_calls_made d
        /\ name (state_attrs d') = name (state_attrs d)
        /\ path (state_attrs d') = path (state_attrs d)
        /\ outcomes (state_attrs d') = outcomes (state_attrs d)
  | None => descendant (Machine (_notify_stop self)) p = None
  end.
Proof.
  intros Hne. destruct p as [|i p]; [done|].
  simpl. rewrite list_lookup_fmap.
  destruct (_states self !! i) as [child|]; [simpl|reflexivity].
  destruct p as [|j p'].
  - simpl. exists (stop_child child). split; [reflexivity|].
    destruct (stop_child_attrs child) as [Hcalls Hflag].
    destruct (stop_child_same_attrs child) as (Hn & Hp & Ho).
    repeat split; try assumption. apply stop_child_kind.
  - apply (stop_child_below (j :: p') child). discriminate.
Qed.

Lemma notify_stop_every_descendant_witness :
  exists d',
    descendant (Machine (_notify_stop example_root)) [1%nat; 0%nat] = Some d'
    /\ on_stop_calls (state_attrs d') = 1%nat
    /\ _is_controlled (state_attrs d') = false
    /\ name (state_attrs d') = "B".
Proof.
  pose proof (notify_stop_every_descendant example_root [1%nat; 0%nat]) as H.
  destruct H as (d' & Hd & Hcalls & Hflag & _ & Hname & _); [discriminate|].
  exists d'. split; [exact Hd|]. split; [exact Hcalls|]. split; [exact Hflag|exact Hname].
Defined.

(** ** Stop notification and the structure message *)

Lemma for_each_map_ext {A B S : Type} (g : A -> B) (body1 : A -> S -> result S)
    (body2 : B -> S -> result S) (xs : list A) :
  Forall (fun x => forall s, body2 (g x) s = body1 x s) xs ->
  forall s, for_each body2 (map g xs) s = for_each body1 xs s.
Proof.
  induction 1 as [|x rest Hx _ IH]; intros s; simpl; [reflexivity|].
  rewrite Hx. destruct (body1 x s); simpl; [apply IH | reflexivity].
Qed.

Lemma complete_state_msg_ext (self self' : OperatableStateMachine) (a a' : attrs) :
  name a' = name a -> outcomes a' = outcomes a ->
  _transitions self' = _transitions self -> _autonomy self' = _autonomy self ->
  complete_state_msg self' a' = complete_state_msg self a.
Proof.
  intros Hname Hout Htr Hau.
  unfold complete_state_msg, transition_target, required_autonomy.
  rewrite Hname, Hout, Htr, Hau. reflexivity.
Qed.

Lemma map_attrs_same_description (f : attrs -> attrs) (st : state) :
  (forall a, name (f a) = name a /\ path (f a) = path a /\ outcomes (f a) = outcomes a) ->
  same_description (map_attrs f st) st.
Proof.
  intros Hf. unfold same_description.
  destruct st as [a|a|sm]; simpl; destruct (Hf a) as (Hn & Hp & Ho) || 
    destruct (Hf (sm_attrs sm)) as (Hn & Hp & Ho).
  - repeat split; try assumption. intros cs. by rewrite Hp.
  - repeat split; try assumption. intros cs. by rewrite Hp.
  - repeat split; try assumption. intros cs.
    unfold _add_to_structure_msg_with. simpl. rewrite Hp. reflexivity.
Qed.

Lemma disable_if_controlled_same_description (st : state) :
  same_description (disable_if_controlled st) st.
Proof.
  unfold disable_if_controlled. destruct (_is_controlled (state_attrs st)).
  - apply map_attrs_same_description. intros a. repeat split.
  - repeat split.
Qed.

Lemma same_description_trans (st1 st2 st3 : state) :
  same_description st1 st2 -> same_description st2 st3 -> same_description st1 st3.
Proof.
  intros (Hn1 & Hp1 & Ho1 & Ha1) (Hn2 & Hp2 & Ho2 & Ha2).
  split; [congruence|]. split; [congruence|]. split; [congruence|].
  intros cs. by rewrite Ha1.
Qed.

Lemma add_to_structure_msg_children_ext (sm sm' : OperatableStateMachine)
    (g : state -> state) :
  path (sm_attrs sm') = path (sm_attrs sm) ->
  _transitions sm' = _transitions sm -> _autonomy sm' = _autonomy sm ->
  _states sm' = map g (_states sm) ->
  Forall (fun st => same_description (g st) st) (_states sm) ->
  forall containers,
    _add_to_structure_msg_with add_child_to_structure_msg sm' containers
    = _add_to_structure_msg_with add_child_to_structure_msg sm containers.
Proof.
  intros Hpath Htr Hau Hstates Hall containers.
  unfold _add_to_structure_msg_with. rewrite Hpath, Hstates.
  rewrite map_map.
  assert (Hnames : map (fun st => name (state_attrs (g st))) (_states sm)
                   = map (fun st => name (state_attrs st)) (_states sm)).
  { clear -Hall. induction Hall as [|st rest (Hn & _) _ IH]; simpl; [reflexivity|].
    by rewrite Hn, IH. }
  rewrite Hnames.
  rewrite (for_each_map_ext g
             (fun st containers =>
                let* (containers, state_msg) := add_child_to_structure_msg st containers in
                complete_state_msg sm (state_attrs st) state_msg containers)).
  - reflexivity.
  - clear -Hall Htr Hau. induction Hall as [|st rest (Hn & Hp & Ho & Hadd) _ IH];
      constructor; [|exact IH].
    intros s. rewrite Hadd.
    rewrite (complete_state_msg_ext sm sm' (state_attrs st) (state_attrs (g st)) Hn Ho Htr Hau).
    reflexivity.
Qed.

Lemma stop_child_same_description (st : state) : same_description (stop_child st) st.
Proof.
  induction st as [a|a|sm IH] using state_ind_nested.
  - apply (same_description_trans _ (OperatableState (on_stop a))).
    + apply (disable_if_controlled_same_description (OperatableState (on_stop a))).
    + repeat split.
  - apply (disable_if_controlled_same_description (OtherState a)).
  - rewrite stop_child_Machine.
    eapply same_description_trans; [apply disable_if_controlled_same_description|].
    repeat split. intros containers. simpl.
    apply (add_to_structure_msg_children_ext sm _ stop_child); try reflexivity.
    exact IH.
Qed.

(** X2: the structure message does not change with [_notify_stop]: built
    after it, the message (or the exception) is the one built before. *)
Theorem build_structure_msg_after_notify_stop (self : OperatableStateMachine) :
  _build_structure_msg (_notify_stop self) = _build_structure_msg self.
Proof.
  unfold _build_structure_msg, _add_to_structure_msg.
  rewrite (add_to_structure_msg_children_ext self (_notify_stop self) stop_child);
    try reflexivity.
  apply Forall_forall. intros st _. apply stop_child_same_description.
Qed.

(** ** Structure requests *)

Lemma comprehension_Ok_all {A B : Type} (f : A -> result B) (xs : list A) (ys : list B) :
  comprehension f xs = Ok ys ->
  forallb (fun x => match f x with Ok _ => true | Raise _ => false end) xs = true.
Proof.
  revert ys. induction xs as [|x rest IH]; intros ys; simpl; [reflexivity|].
  destruct (f x) as [y|e]; simpl; [|discriminate].
  destruct (comprehension f rest) as [ys'|e] eqn:Hrest; simpl; [|discriminate].
  intros _. by apply (IH ys').
Qed.

Lemma child_registered_join (self : OperatableStateMachine) (a : attrs) :
  forallb (fun o => match transition_target self (name a) o with
                    | Ok _ => true | Raise _ => false end) (outcomes a) = true ->
  forallb (fun o => match required_autonomy self (name a) o with
                    | Ok _ => true | Raise _ => false end) (outcomes a) = true ->
  child_registered self a = true.
Proof.
  unfold child_registered. induction (outcomes a) as [|o rest IH]; simpl; [done|].
  intros Htr Hau. apply andb_prop in Htr as [Ho Htr]. apply andb_prop in Hau as [Ho' Hau].
  rewrite (IH Htr Hau).
  destruct (transition_target self (name a) o); [|discriminate].
  destruct (required_autonomy self (name a) o); [|discriminate].
  reflexivity.
Qed.

(** Completing the entry of a child raises when an outcome of the child lacks
    a transition or an autonomy entry. *)
Lemma complete_state_msg_unregistered (self : OperatableStateMachine) (a : attrs)
    (state_msg : nat) (containers : list flexbe_msgs.Container) :
  child_registered self a = false ->
  exists e, complete_state_msg self a state_msg containers = Raise e.
Proof.
  intros Hreg. unfold complete_state_msg.
  destruct (comprehension (transition_target self (name a)) (outcomes a))
    as [ts|e] eqn:Htr; simpl; [|eauto].
  destruct (comprehension (required_autonomy self (name a)) (outcomes a))
    as [ls|e] eqn:Hau; simpl; [|eauto].
  apply comprehension_Ok_all in Htr. apply comprehension_Ok_all in Hau.
  rewrite (child_registered_join _ _ Htr Hau) in Hreg. discriminate.
Qed.

Lemma add_children_loop_raises (self : OperatableStateMachine) (states : list state) :
  Forall (fun st =>
            consistent_state st = false ->
            forall containers, exists e,
              add_child_to_structure_msg st containers = Raise e) states ->
  forallb (fun child => child_registered self (state_attrs child) && consistent_state child)
          states = false ->
  forall containers, exists e,
    for_each (fun st containers =>
                let* (containers, state_msg) := add_child_to_structure_msg st containers in
                complete_state_msg self (state_attrs st) state_msg containers)
             states containers
    = Raise e.
Proof.
  induction 1 as [|child rest Hchild _ IH]; simpl; intros Hall containers; [discriminate|].
  destruct (consistent_state child) eqn:Hcons.
  - rewrite (add_child_to_structure_msg_spec child Hcons). simpl.
    destruct (spec_structure_description_cons child) as (entry & others & ->).
    destruct (child_registered self (state_attrs child)) eqn:Hreg.
    + rewrite complete_state_msg_registered by exact Hreg. simpl.
      apply IH. exact Hall.
    + destruct (complete_state_msg_unregistered self (state_attrs child)
                  (length containers) (containers ++ entry :: others) Hreg) as [e ->].
      simpl. eauto.
  - destruct (Hchild eq_refl containers) as [e ->]. simpl. eauto.
Qed.

Lemma add_child_to_structure_msg_raises (st : state) :
  consistent_state st = false ->
  forall containers, exists e, add_child_to_structure_msg st containers = Raise e.
Proof.
  induction st as [a|a|sm IH] using state_ind_nested; intros Hcons containers;
    try discriminate.
  simpl in Hcons. simpl. unfold _add_to_structure_msg_with.
  destruct (add_children_loop_raises sm (_states sm) IH Hcons
              (containers ++ [set_children (map (fun st => name (state_attrs st)) (_states sm))
                                           (new_container (path (sm_attrs sm)))]))
    as [e ->].
  simpl. eauto.
Qed.

(** X3: a structure request is answered exactly on the trees whose maps hold
    a transition and an autonomy entry for every declared outcome of every
    child; on any other tree the handler raises, publishes nothing and
    leaves the machine, its remote-control flag included, as it was. *)
Theorem mirror_structure_callback_answers_iff_consistent (w : world)
    (self : OperatableStateMachine) (data : Z) :
  (consistent self = true <->
   exists w' self', _mirror_structure_callback w self data = (w', self', Ok tt))
  /\ (consistent self = false ->
      exists w' e,
        _mirror_structure_callback w self data = (w', self, Raise e)
        /\ published w' = published w
        /\ autonomy_level w' = autonomy_level w).
Proof.
  assert (Hfail : consistent self = false ->
                  exists w' e,
                    _mirror_structure_callback w self data = (w', self, Raise e)
                    /\ published w' = published w
                    /\ autonomy_level w' = autonomy_level w).
  { intros Hcons. unfold _mirror_structure_callback, _build_structure_msg, _add_to_structure_msg.
    change (_add_to_structure_msg_with add_child_to_structure_msg self [])
      with (add_child_to_structure_msg (Machine self) []).
    destruct (add_child_to_structure_msg_raises (Machine self) Hcons []) as [e ->].
    simpl. do 2 eexists. repeat split. }
  split; [|exact Hfail]. split.
  - intros Hcons. unfold _mirror_structure_callback.
    rewrite (build_structure_msg_spec self Hcons). eauto.
  - intros (w' & self' & Hrun). destruct (consistent self) eqn:Hcons; [reflexivity|].
    destruct (Hfail eq_refl) as (w'' & e & Hrun' & _). congruence.
Qed.

Lemma mirror_structure_callback_answers_iff_consistent_witness :
  exists w' e,
    _mirror_structure_callback (example_world 3) example_unregistered 12
    = (w', example_unregistered, Raise e)
    /\ published w' = published (example_world 3)
    /\ autonomy_level w' = autonomy_level (example_world 3).
Proof.
  destruct (mirror_structure_callback_answers_iff_consistent
              (example_world 3) example_unregistered 12) as [_ Hfail].
  apply Hfail. reflexivity.
Defined.

Lemma build_structure_msg_enable (self : OperatableStateMachine) :
  _build_structure_msg (set_attrs self (_enable_ros_control (sm_attrs self)))
  = _build_structure_msg self.
Proof. reflexivity. Qed.

(** X4: a repeated structure request has the outcome of the first: the same
    message is published again (or the same exception raised again) and the
    machine stays as the first request left it. *)
Theorem mirror_structure_callback_repeated (w : world) (self : OperatableStateMachine)
    (data1 data2 : Z) :
  exists w1 self1 r msgs w2,
    _mirror_structure_callback w self data1 = (w1, self1, r)
    /\ _mirror_structure_callback w1 self1 data2 = (w2, self1, r)
    /\ published w1 = published w ++ msgs
    /\ published w2 = published w ++ msgs ++ msgs
    /\ (length msgs <= 1)%nat.
Proof.
  unfold _mirror_structure_callback.
  destruct (_build_structure_msg self) as [msg|e] eqn:Hbuild.
  - do 2 eexists. exists (Ok tt), [("flexbe/mirror/structure", flexbe_msgs.Structure msg)].
    eexists. split; [reflexivity|]. split.
    + rewrite build_structure_msg_enable, Hbuild. reflexivity.
    + simpl. rewrite <- app_assoc. repeat split. lia.
  - do 2 eexists. exists (Raise e), []. eexists.
    split; [reflexivity|]. split.
    + rewrite Hbuild. reflexivity.
    + simpl. rewrite !app_nil_r. repeat split. lia.
Qed.

(** ** Explicit synchronisation *)

Lemma process_sync_request_not_pending
    (get_deep_state : OperatableStateMachine -> result (option attrs))
    (w : world) (self : OperatableStateMachine) :
  _inner_sync_request self = false ->
  process_sync_request get_deep_state w self
  = (log w (logerror (NoSyncRequestFlag (name (sm_attrs self)))), self).
Proof. intros Hflag. unfold process_sync_request. by rewrite Hflag. Qed.

(** X5: a sync request is answered once: after [_sync_callback] the first
    [process_sync_request] publishes two messages and clears the flag, and a
    further call publishes nothing and leaves the machine alone. *)
Theorem process_sync_request_answers_once
    (get_deep_state : OperatableStateMachine -> result (option attrs))
    (w : world) (self : OperatableStateMachine) :
  exists w1 self1 w2 msgs,
    process_sync_request get_deep_state w (_sync_callback self) = (w1, self1)
    /\ published w1 = published w ++ msgs
    /\ length msgs = 2%nat
    /\ process_sync_request get_deep_state w1 self1 = (w2, self1)
    /\ published w2 = published w1
    /\ _inner_sync_request self1 = false.
Proof.
  destruct (process_sync_request_pending get_deep_state w (_sync_callback self) eq_refl)
    as (checksum & w1 & Hrun & Hpub & _).
  exists w1, (set_inner_sync_request (_sync_callback self) false).
  eexists. exists (sync_publications (sm_id (_sync_callback self)) checksum).
  split; [exact Hrun|]. split; [exact Hpub|]. split; [reflexivity|].
  split; [by apply process_sync_request_not_pending|]. split; reflexivity.
Qed.

(** X6: when the id is set and the active-path snapshot is the path of the
    deep state, the BehaviorSync message of [process_sync_request] is the
    message [get_latest_status] returns, and clearing the flag does not
    change the latter. *)
Theorem sync_message_matches_status
    (get_deep_state : OperatableStateMachine -> result (option attrs))
    (w : world) (self : OperatableStateMachine) (deep_state : attrs) (beh_id : Z) :
  _inner_sync_request self = true ->
  get_deep_state self = Ok (Some deep_state) ->
  _last_deep_state_path self = Some (path deep_state) ->
  sm_id self = Some beh_id ->
  exists w' self',
    process_sync_request get_deep_state w self = (w', self')
    /\ published w' =
         published w
         ++ [("flexbe/mirror/sync", flexbe_msgs.Sync (get_latest_status self));
             ("flexbe/command_feedback", flexbe_msgs.Feedback sync_feedback)]
    /\ get_latest_status self' = get_latest_status self.
Proof.
  intros Hflag Hdeep Hpath Hid.
  destruct (process_sync_request_pending get_deep_state w self Hflag)
    as (checksum & w' & Hrun & Hpub & _ & _ & _ & Hsome).
  exists w', (set_inner_sync_request self false).
  split; [exact Hrun|]. split; [|reflexivity].
  rewrite Hpub, (Hsome deep_state Hdeep). unfold sync_publications, get_latest_status.
  rewrite Hid, Hpath. reflexivity.
Qed.

Lemma sync_message_matches_status_witness :
  exists w' self',
    process_sync_request example_deep_state (example_world 3) (_sync_callback example_root)
    = (w', self')
    /\ published w' =
         published (example_world 3)
         ++ [("flexbe/mirror/sync",
              flexbe_msgs.Sync (get_latest_status (_sync_callback example_root)));
             ("flexbe/command_feedback", flexbe_msgs.Feedback sync_feedback)]
    /\ get_latest_status self' = get_latest_status (_sync_callback example_root).
Proof.
  apply (sync_message_matches_status example_deep_state (example_world 3)
           (_sync_callback example_root)
           (example_attrs "A" "/root/A" ["done"; "fail"] false) 7); reflexivity.
Defined.

(** X7: every checksum put into a BehaviorSync message, by
    [get_latest_status] or by [process_sync_request] whatever resolving the
    deep state does, is at least 0 and below 2^31. *)
Theorem sync_checksum_fits_int32
    (get_deep_state : OperatableStateMachine -> result (option attrs))
    (w : world) (self : OperatableStateMachine) :
  0 <= flexbe_msgs.current_state_checksum (get_latest_status self) < 2 ^ 31
  /\ (_inner_sync_request self = true ->
      exists msg w' self',
        process_sync_request get_deep_state w self = (w', self')
        /\ published w' =
             published w
             ++ [("flexbe/mirror/sync", flexbe_msgs.Sync msg);
                 ("flexbe/command_feedback", flexbe_msgs.Feedback sync_feedback)]
        /\ 0 <= flexbe_msgs.current_state_checksum msg < 2 ^ 31).
Proof.
  split.
  - rewrite get_latest_status_checksum_eq.
    destruct (_last_deep_state_path self); [apply path_checksum_range | lia].
  - intros Hflag.
    destruct (process_sync_request_pending get_deep_state w self Hflag)
      as (checksum & w' & Hrun & Hpub & _ & Hnone & Hraise & Hsome).
    eexists. exists w', (set_inner_sync_request self false).
    split; [exact Hrun|]. split; [exact Hpub|]. simpl.
    destruct (get_deep_state self) as [[deep_state|]|exc].
    + rewrite (Hsome deep_state eq_refl). apply path_checksum_range.
    + destruct (Hnone eq_refl) as [-> _]. lia.
    + destruct (Hraise exc eq_refl) as [-> _]. lia.
Qed.

Lemma sync_checksum_fits_int32_witness :
  exists msg w' self',
    process_sync_request example_deep_state_raises (example_world 3)
      (_sync_callback example_root) = (w', self')
    /\ published w' =
         published (example_world 3)
         ++ [("flexbe/mirror/sync", flexbe_msgs.Sync msg);
             ("flexbe/command_feedback", flexbe_msgs.Feedback sync_feedback)]
    /\ 0 <= flexbe_msgs.current_state_checksum msg < 2 ^ 31.
Proof.
  destruct (sync_checksum_fits_int32 example_deep_state_raises (example_world 3)
              (_sync_callback example_root)) as [_ Hsync].
  apply Hsync. reflexivity.
Defined.

(** ** Autonomy level *)

(** X8: a repeated attach command leaves the machine as the first left it,
    sets the autonomy level to the level of the last command and publishes
    the same feedback once per command. *)
Theorem attach_callback_repeated (w : world) (self : OperatableStateMachine) (v1 v2 : Z) :
  exists w1 self1 w2 feedback,
    _attach_callback w self v1 = (w1, self1)
    /\ _attach_callback w1 self1 v2 = (w2, self1)
    /\ autonomy_level w2 = v2
    /\ published w2 = published w ++ [feedback; feedback].
Proof.
  do 4 eexists. split; [reflexivity|]. split; [reflexivity|]. split; [reflexivity|].
  simpl. rewrite <- app_assoc. reflexivity.
Qed.

(** X9: [_set_autonomy_level] with a level that is not negative stores it as
    the process-wide level, leaves the machine and the subscriptions alone
    and logs nothing when the level is the current one; with a negative
    level it stores nothing and hands over to [_preempt_cb]; either way the
    feedback "autonomy" is published last. *)
Theorem set_autonomy_level_effects
    (preempt : Z -> process -> OperatableStateMachine -> process * OperatableStateMachine)
    (p : process) (self : OperatableStateMachine) (data : Z) :
  (0 <= data ->
   exists p',
     _set_autonomy_level preempt p self data = (p', self)
     /\ autonomy_level (proc_world p') = data
     /\ published (proc_world p')
        = published (proc_world p)
          ++ [("flexbe/command_feedback", flexbe_msgs.Feedback autonomy_feedback)]
     /\ subscriptions p' = subscriptions p
     /\ (autonomy_level (proc_world p) = data -> lifecycle p' = lifecycle p))
  /\ (data < 0 ->
      exists p1,
        proc_world p1 = proc_world p
        /\ subscriptions p1 = subscriptions p
        /\ _set_autonomy_level preempt p self data
           = (set_world (fst (preempt data p1 self))
                        (publish (proc_world (fst (preempt data p1 self)))
                                 "flexbe/command_feedback"
                                 (flexbe_msgs.Feedback autonomy_feedback)),
              snd (preempt data p1 self))).
Proof.
  split; intros Hdata; unfold _set_autonomy_level.
  - rewrite (bool_decide_eq_false_2 (data < 0)) by lia.
    eexists. split; [reflexivity|]. simpl.
    split; [reflexivity|]. 
    case_bool_decide as Hchange; simpl; repeat split; intros; congruence.
  - rewrite (bool_decide_eq_true_2 (data < 0)) by lia.
    exists (note (if bool_decide (autonomy_level (proc_world p) <> data)
                  then note p (RequestAutonomyChanged data (name (sm_attrs self)))
                  else p)
                 (NegativeAutonomyPreempt data (name (sm_attrs self)))).
    split; [by case_bool_decide|]. split; [by case_bool_decide|].
    destruct (preempt data _ self). reflexivity.
Qed.

Lemma set_autonomy_level_effects_witness :
  (exists p',
     _set_autonomy_level example_preempt_cb (example_process 3) example_root 2
     = (p', example_root)
     /\ autonomy_level (proc_world p') = 2)
  /\ (exists p',
        _set_autonomy_level example_preempt_cb (example_process 3) example_root (-1)
        = (p', example_root)
        /\ autonomy_level (proc_world p') = 3).
Proof.
  destruct (set_autonomy_level_effects example_preempt_cb (example_process 3)
              example_root 2) as [Hset _].
  destruct (set_autonomy_level_effects example_preempt_cb (example_process 3)
              example_root (-1)) as [_ Hpreempt].
  split.
  - destruct Hset as (p' & Hrun & Hlevel & _); [lia|]. exists p'. by split.
  - destruct Hpreempt as (p1 & Hworld & _ & Hrun); [lia|].
    eexists. split; [exact Hrun|]. simpl. by rewrite Hworld.
Defined.

(** X10: the autonomy level is shared by all machines: after an attach
    command, or a level command that is not negative, handled by one
    machine, the gate of any other machine compares with the new level. *)
Theorem autonomy_level_is_shared
    (preempt : Z -> process -> OperatableStateMachine -> process * OperatableStateMachine)
    (p : process) (self other : OperatableStateMachine) (v : Z)
    (label outcome : string) (levels : gmap string Z) :
  _autonomy other !! label = Some (Some levels) ->
  is_transition_allowed (fst (_attach_callback (proc_world p) self v)) other label outcome
  = Ok (bool_decide (default (-1) (levels !! outcome) < v))
  /\ (0 <= v ->
      is_transition_allowed (proc_world (fst (_set_autonomy_level preempt p self v)))
                            other label outcome
      = Ok (bool_decide (default (-1) (levels !! outcome) < v))).
Proof.
  intros Hreg. split.
  - by rewrite (is_transition_allowed_registered _ _ _ _ _ Hreg).
  - intros Hv.
    rewrite (is_transition_allowed_registered _ _ _ _ _ Hreg).
    unfold _set_autonomy_level. rewrite (bool_decide_eq_false_2 (v < 0)) by lia.
    reflexivity.
Qed.

Lemma autonomy_level_is_shared_witness :
  is_transition_allowed
    (fst (_attach_callback (proc_world (example_process 0)) example_nesting 3))
    example_root "A" "fail"
  = Ok true.
Proof.
  destruct (autonomy_level_is_shared example_preempt_cb (example_process 0)
              example_nesting example_root 3 "A" "fail" example_A_levels) as [Hattach _].
  - reflexivity.
  - exact Hattach.
Defined.

(** X11: [get_required_autonomy] returns a level exactly when a child is
    active, registered with an autonomy map that has an entry for the
    outcome; the gate for the active child then compares that level with the
    autonomy level; and it raises [StateMachineError] exactly when no child
    is active. *)
Theorem get_required_autonomy_agrees (w : world) (self : OperatableStateMachine)
    (outcome : string) (required : Z) :
  (get_required_autonomy self outcome = Ok required <->
   exists label levels,
     _current_state self = Some label
     /\ _autonomy self !! label = Some (Some levels)
     /\ levels !! outcome = Some required)
  /\ (get_required_autonomy self outcome = Ok required ->
      exists label,
        current_state_label self = Ok label
        /\ is_transition_allowed w self label outcome
           = Ok (bool_decide (required < autonomy_level w)))
  /\ (get_required_autonomy self outcome = Raise StateMachineError <->
      _current_state self = None).
Proof.
  unfold get_required_autonomy, is_transition_allowed, current_state_label, getitem.
  destruct (_current_state self) as [label|] eqn:Hactive; simpl.
  - destruct (_autonomy self !! label) as [[levels|]|] eqn:Hreg; simpl;
      [destruct (levels !! outcome) as [r|] eqn:Hout; simpl|..];
      (split; [split|split; [|split; discriminate]]);
      try discriminate;
      try (intros (l & ls & Hl & Hls & Hr); simplify_eq; done).
    + intros Heq. simplify_eq. eauto.
    + intros Heq. simplify_eq. exists label. rewrite Hreg. simpl. rewrite Hout. done.
  - split; [split|split]; try discriminate.
    + intros (l & ls & ? & _). discriminate.
    + split; reflexivity.
Qed.

Lemma get_required_autonomy_agrees_witness :
  exists label,
    current_state_label example_root = Ok label
    /\ is_transition_allowed (example_world 3) example_root label "fail"
       = Ok (bool_decide (2 < autonomy_level (example_world 3))).
Proof.
  destruct (get_required_autonomy_agrees (example_world 3) example_root "fail" 2)
    as (_ & Hgate & _).
  apply Hgate. reflexivity.
Defined.

(** ** Fail-safe execution *)

(** X12: after a step that failed with the child still active, a step that
    returns is passed on and clears the last exception; neither call
    publishes or changes the autonomy level. *)
Theorem execute_current_state_recovers
    (step1 step2 : OperatableStateMachine -> OperatableStateMachine * result (option string))
    (w : world) (self self1 self2 : OperatableStateMachine) (exc : exn) (label : string)
    (outcome : option string) :
  step1 self = (self1, Raise exc) ->
  _current_state self1 = Some label ->
  step2 (set_last_exception self1 (Some exc)) = (self2, Ok outcome) ->
  exists w1 s1 s2,
    _execute_current_state step1 w self = (w1, s1, Ok None)
    /\ _last_exception s1 = Some exc
    /\ _execute_current_state step2 w1 s1 = (w1, s2, Ok outcome)
    /\ _last_exception s2 = None
    /\ published w1 = published w
    /\ autonomy_level w1 = autonomy_level w.
Proof.
  intros Hstep1 Hactive Hstep2. unfold _execute_current_state.
  rewrite Hstep1. unfold current_state_label. simpl. rewrite Hactive.
  do 3 eexists. split; [reflexivity|]. split; [reflexivity|].
  rewrite Hstep2. repeat split.
Qed.

Lemma execute_current_state_recovers_witness :
  exists w1 s1 s2,
    _execute_current_state example_failing_step (example_world 3) example_root
    = (w1, s1, Ok None)
    /\ _last_exception s1 = Some (RuntimeError "boom")
    /\ _execute_current_state example_successful_step w1 s1 = (w1, s2, Ok (Some "done"))
    /\ _last_exception s2 = None
    /\ published w1 = published (example_world 3)
    /\ autonomy_level w1 = autonomy_level (example_world 3).
Proof.
  apply (execute_current_state_recovers example_failing_step example_successful_step
           (example_world 3) example_root example_root
           (set_last_exception example_root (Some (RuntimeError "boom")))
           (RuntimeError "boom") "A" (Some "done")); reflexivity.
Defined.

(** ** Life cycle *)

Lemma omap_concat {A B : Type} (f : A -> option B) (ls : list (list A)) :
  omap f (concat ls) = concat (map (omap f) ls).
Proof.
  induction ls as [|l ls IH]; simpl; [reflexivity|].
  by rewrite omap_app, IH.
Qed.

Lemma start_child_preorder (st : state) (parent : option OperatableStateMachine) :
  start_child st
  = omap (fun node => match snd node with
                      | OperatableState a => Some a
                      | _ => None
                      end)
         (preorder parent st).
Proof.
  revert parent. induction st as [a|a|sm IH] using state_ind_nested; intros parent;
    try reflexivity.
  simpl. unfold _notify_start_with. rewrite omap_concat, map_map. f_equal.
  induction IH as [|child rest Hchild _ IHrest]; simpl; [reflexivity|].
  by rewrite (Hchild (Some sm)), IHrest.
Qed.

(** X13: [_notify_start] calls [on_start] on the [OperatableState]s of the
    tree, each once, in depth-first order, and on nothing else: not on the
    root, not on a nested container and not on a state of another class. *)
Theorem notify_start_operatable_states (self : OperatableStateMachine) :
  _notify_start self = operatable_states (Machine self).
Proof.
  exact (start_child_preorder (Machine self) None).
Qed.

Lemma disable_if_controlled_uncontrolled (st : state) :
  uncontrolled (disable_if_controlled st)
  = match st with
    | Machine sm => forallb uncontrolled (_states sm)
    | _ => true
    end.
Proof.
  unfold disable_if_controlled.
  destruct (_is_controlled (state_attrs st)) eqn:Hflag;
    destruct st; simpl in *; rewrite ?Hflag; reflexivity.
Qed.

Lemma stop_child_uncontrolled (st : state) : uncontrolled (stop_child st) = true.
Proof.
  induction st as [a|a|sm IH] using state_ind_nested.
  - apply (disable_if_controlled_uncontrolled (OperatableState (on_stop a))).
  - apply (disable_if_controlled_uncontrolled (OtherState a)).
  - rewrite stop_child_Machine, disable_if_controlled_uncontrolled. simpl.
    induction IH as [|child rest Hchild _ IHrest]; simpl; [reflexivity|].
    by rewrite Hchild, IHrest.
Qed.

(** X14: after [destroy] the remote-control flag is off at the root and at
    every node below it, the [on_stop] of the root has been called once, and
    nothing was published. *)
Theorem destroy_leaves_nothing_controlled (inst_id : Z) (p : process)
    (self : OperatableStateMachine) :
  exists p' self',
    destroy inst_id p self = (p', self')
    /\ uncontrolled (Machine self') = true
    /\ on_stop_calls (sm_attrs self') = S (on_stop_calls (sm_attrs self))
    /\ proc_world p' = proc_world p
    /\ length (_states self') = length (_states self).
Proof.
  do 2 eexists. split; [reflexivity|]. simpl.
  split; [|split; [reflexivity|split; [reflexivity|by rewrite length_map]]].
  induction (_states self) as [|child rest IH]; simpl; [reflexivity|].
  by rewrite stop_child_uncontrolled, IH.
Qed.

(** X15: [confirm] subscribes this instance to the four command topics and
    [destroy] removes exactly these four subscriptions: subscriptions of
    other instances are untouched, and when the instance held none of the
    four before, [destroy] after [confirm] leaves the subscriptions as they
    were. *)
Theorem confirm_destroy_subscriptions (inst_id : Z) (p : process)
    (self : OperatableStateMachine) (new_name : string) (beh_id : Z) :
  let commands : gset (string * Z) :=
    {[ ("flexbe/command/autonomy", inst_id); ("flexbe/command/sync", inst_id);
       ("flexbe/command/attach", inst_id); ("flexbe/request_mirror_structure", inst_id) ]} in
  let confirmed := confirm inst_id p self new_name beh_id in
  let destroyed := destroy inst_id (fst confirmed) (snd confirmed) in
  subscriptions (fst confirmed) = commands ∪ subscriptions p
  /\ subscriptions (fst destroyed) = subscriptions p ∖ commands
  /\ (forall topic other, other <> inst_id ->
        ((topic, other) ∈ subscriptions (fst destroyed) <-> (topic, other) ∈ subscriptions p))
  /\ (subscriptions p ## commands -> subscriptions (fst destroyed) = subscriptions p).
Proof.
  simpl. split; [|split; [|split]].
  - apply set_eq. intros x. set_unfold. tauto.
  - apply set_eq. intros x. set_unfold. tauto.
  - intros topic other Hother. set_unfold. split; [tauto|].
    intros Hin. repeat split; try tauto; intros [= _ Heq]; congruence.
  - intros Hdisjoint. apply set_eq. intros x. set_unfold.
    split; [tauto|]. intros Hin. pose proof (Hdisjoint x Hin). tauto.
Qed.

Lemma confirm_destroy_subscriptions_witness :
  subscriptions
    (fst (destroy 7 (fst (confirm 7 (example_process 3) example_root "behavior" 5))
                    (snd (confirm 7 (example_process 3) example_root "behavior" 5))))
  = subscriptions (example_process 3).
Proof.
  destruct (confirm_destroy_subscriptions 7 (example_process 3) example_root "behavior" 5)
    as (_ & _ & _ & Hround).
  apply Hround. simpl. intros x Hin Hcommand.
  apply elem_of_singleton in Hin. subst x.
  repeat (apply elem_of_union in Hcommand as [Hcommand|Hcommand]);
    apply elem_of_singleton in Hcommand; discriminate.
Defined.

(** X16: when [on_exit] returns, no child is active: asking for the label of
    the current state or for a required autonomy raises
    [StateMachineError], and a further [on_exit] changes nothing. *)
Theorem on_exit_clears_active_child
    (exit_current_state : OperatableStateMachine -> string -> result OperatableStateMachine)
    (self self' : OperatableStateMachine) :
  on_exit exit_current_state self = Ok self' ->
  _current_state self' = None
  /\ on_exit exit_current_state self' = Ok self'
  /\ current_state_label self' = Raise StateMachineError
  /\ (forall outcome, get_required_autonomy self' outcome = Raise StateMachineError).
Proof.
  intros Hexit.
  assert (Hnone : _current_state self' = None).
  { unfold on_exit in Hexit. destruct (_current_state self) as [label|] eqn:Hactive.
    - destruct (exit_current_state self label); simpl in Hexit; [|discriminate].
      by injection Hexit as <-.
    - by injection Hexit as <-. }
  split; [exact Hnone|].
  unfold on_exit, get_required_autonomy, current_state_label. rewrite Hnone.
  repeat split.
Qed.

Lemma on_exit_clears_active_child_witness :
  _current_state (set_current_state example_root None) = None
  /\ on_exit example_exit_current_state (set_current_state example_root None)
     = Ok (set_current_state example_root None)
  /\ current_state_label (set_current_state example_root None) = Raise StateMachineError
  /\ (forall outcome,
        get_required_autonomy (set_current_state example_root None) outcome
        = Raise StateMachineError).
Proof.
  apply (on_exit_clears_active_child example_exit_current_state example_root).
  reflexivity.
Defined.

(** X17: [confirm] stores the name and the id, so that the status message
    carries the id with an unchanged checksum; it enables remote control
    unless the autonomy level is 255, publishes nothing, creates the three
    publishers and calls [on_start] on the [OperatableState]s of the tree. *)
Theorem confirm_effects (inst_id : Z) (p : process) (self : OperatableStateMachine)
    (new_name : string) (beh_id : Z) :
  exists p' self',
    confirm inst_id p self new_name beh_id = (p', self')
    /\ sm_id self' = Some beh_id
    /\ name (sm_attrs self') = new_name
    /\ flexbe_msgs.behavior_id (get_latest_status self') = Some beh_id
    /\ flexbe_msgs.current_state_checksum (get_latest_status self')
       = flexbe_msgs.current_state_checksum (get_latest_status self)
    /\ (_is_controlled (sm_attrs self') = true <->
        autonomy_level (proc_world p) <> 255 \/ _is_controlled (sm_attrs self) = true)
    /\ proc_world p' = proc_world p
    /\ publishers p' = publishers p ++ ["flexbe/mirror/sync"; "flexbe/mirror/structure";
                                        "flexbe/command_feedback"]
    /\ started p' = started p ++ operatable_states (Machine self).
Proof.
  do 2 eexists. split; [reflexivity|]. simpl.
  case_bool_decide as Hlevel; simpl.
  - repeat split; try (intros; tauto); try (by rewrite <- !app_assoc).
    f_equal. apply (start_child_preorder (Machine self) None).
  - repeat split; try (by rewrite <- !app_assoc).
    + intros H; by right.
    + intros [H|H]; [|exact H]. exfalso. by apply H.
    + f_equal. apply (start_child_preorder (Machine self) None).
Qed.

(** ** Construction *)

(** What [add] changes of the container. *)
Lemma add_inversion (self self' : OperatableStateMachine) (label : string) (st : state)
    (transitions : gmap string string) (autonomy : option (gmap string Z)) :
  add self label st transitions autonomy = Ok self' ->
  (label ∉ map (fun s => name (state_attrs s)) (_states self))
  /\ dom transitions = list_to_set (outcomes (state_attrs st))
  /\ _states self' = _states self ++ [map_attrs (fun a => set_name a label) st]
  /\ _transitions self' = <[label := transitions]> (_transitions self)
  /\ _autonomy self' = <[label := autonomy]> (_autonomy self)
  /\ sm_attrs self' = sm_attrs self.
Proof.
  unfold add, base_add.
  case_bool_decide as Hused; [discriminate|].
  case_bool_decide as Hdom; [|discriminate].
  simpl. intros Heq. injection Heq as <-. simpl. repeat split; assumption.
Qed.

(** X18: after [add] of a child with an autonomy map, the gate for the new
    label compares the registered level (or -1) with the autonomy level, and
    the gate for every other label is as before. *)
Theorem add_then_gate (w : world) (self self' : OperatableStateMachine) (label : string)
    (st : state) (transitions : gmap string string) (levels : gmap string Z) :
  add self label st transitions (Some levels) = Ok self' ->
  (forall outcome,
     is_transition_allowed w self' label outcome
     = Ok (bool_decide (default (-1) (levels !! outcome) < autonomy_level w)))
  /\ (forall other outcome, other <> label ->
        is_transition_allowed w self' other outcome
        = is_transition_allowed w self other outcome).
Proof.
  intros Hadd. pose proof (add_autonomy _ _ _ _ _ _ Hadd) as Hreg.
  apply add_inversion in Hadd as (Hfresh & Hdom & Hstates & Htr & Hau & Hattrs).
  split.
  - intros outcome. by apply is_transition_allowed_registered.
  - intros other outcome Hne. unfold is_transition_allowed, getitem.
    rewrite Hau, lookup_insert_ne by done. reflexivity.
Qed.

Lemma add_then_gate_witness :
  (forall outcome,
     is_transition_allowed (example_world 1) example_added "A" outcome
     = Ok (bool_decide (default (-1) (example_A_levels !! outcome)
                        < autonomy_level (example_world 1))))
  /\ (forall other outcome, other <> "A" ->
        is_transition_allowed (example_world 1) example_added other outcome
        = is_transition_allowed (example_world 1) example_empty_child other outcome).
Proof.
  apply (add_then_gate (example_world 1) example_empty_child example_added "A" example_A
           {[ "done" := "done"; "fail" := "done" ]} example_A_levels).
  reflexivity.
Defined.

Lemma consistent_state_map_attrs (f : attrs -> attrs) (st : state) :
  consistent_state (map_attrs f st) = consistent_state st.
Proof. destruct st; reflexivity. Qed.

Lemma child_registered_other (self self' : OperatableStateMachine) (label : string)
    (transitions : gmap string string) (autonomy : option (gmap string Z)) (a : attrs) :
  _transitions self' = <[label := transitions]> (_transitions self) ->
  _autonomy self' = <[label := autonomy]> (_autonomy self) ->
  name a <> label ->
  child_registered self' a = child_registered self a.
Proof.
  intros Htr Hau Hne.
  unfold child_registered, transition_target, required_autonomy, getitem.
  rewrite Htr, Hau, !lookup_insert_ne by done. reflexivity.
Qed.

Lemma child_registered_added (self' : OperatableStateMachine) (label : string)
    (transitions : gmap string string) (levels : gmap string Z) (a : attrs) :
  _transitions self' !! label = Some transitions ->
  _autonomy self' !! label = Some (Some levels) ->
  name a = label ->
  (forall o, o ∈ outcomes a -> is_Some (transitions !! o) /\ is_Some (levels !! o)) ->
  child_registered self' a = true.
Proof.
  intros Htr Hau Hname Hall.
  unfold child_registered, transition_target, required_autonomy, getitem.
  rewrite Hname, Htr, Hau. simpl.
  induction (outcomes a) as [|o rest IH]; simpl; [reflexivity|].
  destruct (Hall o) as [[t Ht] [l Hl]]; [left|].
  rewrite Ht, Hl. simpl. apply IH. intros o' Hin. apply Hall. by right.
Qed.

Lemma children_registered_other (self self' : OperatableStateMachine) (label : string)
    (transitions : gmap string string) (autonomy : option (gmap string Z))
    (states : list state) :
  _transitions self' = <[label := transitions]> (_transitions self) ->
  _autonomy self' = <[label := autonomy]> (_autonomy self) ->
  (label ∉ map (fun s => name (state_attrs s)) states) ->
  forallb (fun child => child_registered self' (state_attrs child) && consistent_state child)
          states
  = forallb (fun child => child_registered self (state_attrs child) && consistent_state child)
            states.
Proof.
  intros Htr Hau. induction states as [|child rest IH]; simpl; intros Hfresh; [reflexivity|].
  apply not_elem_of_cons in Hfresh as [Hne Hfresh].
  rewrite (child_registered_other self self' label transitions autonomy) by done.
  by rewrite IH.
Qed.

(** X19: [add] keeps the invariant of the maps: when the container and the
    new child satisfy it and the transitions and the autonomy map given have
    an entry for every declared outcome of the child, the container
    satisfies it after [add], and its structure message can be built. *)
Theorem add_keeps_consistent (self self' : OperatableStateMachine) (label : string)
    (st : state) (transitions : gmap string string) (levels : gmap string Z) :
  consistent self = true ->
  consistent_state st = true ->
  (forall o, o ∈ outcomes (state_attrs st) ->
     is_Some (transitions !! o) /\ is_Some (levels !! o)) ->
  add self label st transitions (Some levels) = Ok self' ->
  consistent self' = true
  /\ exists msg, _build_structure_msg self' = Ok msg.
Proof.
  intros Hcons Hst Hlevels Hadd.
  apply add_inversion in Hadd as (Hfresh & Hdom & Hstates & Htr & Hau & Hattrs).
  assert (Hcons' : consistent self' = true).
  { unfold consistent in *. simpl in *. rewrite Hstates, forallb_app. simpl.
    rewrite (children_registered_other self self' label transitions (Some levels))
      by done.
    rewrite Hcons, consistent_state_map_attrs, Hst. simpl.
    rewrite !andb_true_r.
    apply (child_registered_added self' label transitions levels).
    - rewrite Htr. apply lookup_insert_eq.
    - rewrite Hau. apply lookup_insert_eq.
    - destruct st; reflexivity.
    - assert (Hout : outcomes (state_attrs (map_attrs (fun a => set_name a label) st))
                     = outcomes (state_attrs st)) by (destruct st; reflexivity).
      rewrite Hout. exact Hlevels. }
  split; [exact Hcons'|]. eexists. by apply build_structure_msg_spec.
Qed.

Lemma add_keeps_consistent_witness :
  consistent example_added = true
  /\ exists msg, _build_structure_msg example_added = Ok msg.
Proof.
  apply (add_keeps_consistent example_empty_child example_added "A" example_A
           {[ "done" := "done"; "fail" := "done" ]} example_A_levels).
  - reflexivity.
  - reflexivity.
  - intros o Hin. simpl in Hin.
    apply elem_of_cons in Hin as [->|Hin]; [split; by eexists|].
    apply elem_of_cons in Hin as [->|Hin]; [split; by eexists|].
    by apply elem_of_nil in Hin.
  - reflexivity.
Defined.

(** ** Before and after [confirm] *)

(** X20: on a tree that satisfies the invariant of the maps, a structure
    request after [confirm] is answered with the confirmed id in the
    message and one entry per node, and remote control is on afterwards,
    also at autonomy level 255 where [confirm] itself does not enable it. *)
Theorem confirm_then_structure_request (inst_id : Z) (p : process)
    (self : OperatableStateMachine) (new_name : string) (beh_id data : Z) :
  consistent self = true ->
  exists w' self' entries,
    _mirror_structure_callback (proc_world p)
      (snd (confirm inst_id p self new_name beh_id)) data = (w', self', Ok tt)
    /\ published w' =
         published (proc_world p)
         ++ [("flexbe/mirror/structure",
              flexbe_msgs.Structure {| flexbe_msgs.structure_behavior_id := Some beh_id;
                                       flexbe_msgs.containers := entries |})]
    /\ length entries = length (preorder None (Machine self))
    /\ _is_controlled (sm_attrs self') = true.
Proof.
  intros Hcons. unfold _mirror_structure_callback.
  assert (Hbuild : _build_structure_msg (snd (confirm inst_id p self new_name beh_id))
                   = Ok {| flexbe_msgs.structure_behavior_id := Some beh_id;
                           flexbe_msgs.containers :=
                             spec_structure_description
                               (set_outcomes (outcomes (sm_attrs self))) (Machine self) |}).
  { pose proof (add_child_to_structure_msg_spec (Machine self) Hcons []) as Hadd.
    unfold confirm. simpl. unfold _build_structure_msg, _add_to_structure_msg.
    case_bool_decide; simpl;
      change (_add_to_structure_msg_with add_child_to_structure_msg _ [])
        with (add_child_to_structure_msg (Machine self) []);
      rewrite Hadd; reflexivity. }
  rewrite Hbuild. do 3 eexists. split; [reflexivity|]. simpl.
  split; [reflexivity|]. split; [|reflexivity].
  assert (Hentries :
            Forall2 entry_describes (preorder None (Machine self))
                    (spec_structure_description
                       (set_outcomes (outcomes (sm_attrs self))) (Machine self))).
  { apply (spec_structure_description_describes (Machine self) Hcons).
    unfold entry_describes. simpl. repeat split. }
  apply Forall2_length in Hentries. symmetry. exact Hentries.
Qed.

Lemma confirm_then_structure_request_witness :
  exists w' self' entries,
    _mirror_structure_callback (proc_world (example_process 255))
      (snd (confirm 7 (example_process 255) example_root "behavior" 5)) 12
    = (w', self', Ok tt)
    /\ published w' =
         published (proc_world (example_process 255))
         ++ [("flexbe/mirror/structure",
              flexbe_msgs.Structure {| flexbe_msgs.structure_behavior_id := Some 5;
                                       flexbe_msgs.containers := entries |})]
    /\ length entries = length (preorder None (Machine example_root))
    /\ _is_controlled (sm_attrs self') = true.
Proof.
  apply (confirm_then_structure_request 7 (example_process 255) example_root "behavior" 5 12).
  reflexivity.
Defined.
